(** * kmodui: the module parameter model and the edit workflow

    A shallow embedding of [kmodui.py]: the three readers
    ([read_sysfs_params], [get_modinfo_details], [get_etc_configs]), the
    model builder [get_module_model], and the handlers of the Textual
    application ([action_edit_parameter] with its callback [check_edit],
    [on_input_changed], [_render_list], [_load_details]).

    A Python [str] is a [string] whose characters are code points below
    256.  The operating system is a record of the calls the program makes
    on it; a call that can raise returns a [res]. *)

From Stdlib Require Import ZArith Lia Ascii String List Sorted Permutation.
From stdpp Require Import base option list gmap strings sorting.

Local Open Scope Z_scope.

(** ** Exceptions and results *)

(** An exception caught by [except Exception]; [text] is [str(e)]. *)
Inductive exn : Type :=
| Exn (text : string).

Definition exn_text (e : exn) : string :=
  match e with Exn t => t end.

Inductive res (A : Type) : Type :=
| Ok (a : A)
| Raise (e : exn).

Arguments Ok {A} a.
Arguments Raise {A} e.

Definition res_bind {A B} (r : res A) (k : A → res B) : res B :=
  match r with
  | Ok a => k a
  | Raise e => Raise e
  end.

#[global] Instance res_ret : MRet res := @Ok.
#[global] Instance res_mbind : MBind res := λ A B k r, res_bind r k.

(** ** The strings table *)

Module STRINGS.

Definition warn_select_param : string :=
  "Select a parameter on the right using the arrow keys".

Definition warn_not_writable (name : string) : string :=
  "Parameter " +:+ name +:+ " is not writable at runtime".

Definition ok_updated (name value : string) : string :=
  "Updated: " +:+ name +:+ " = " +:+ value.

Definition err_write (error : exn) : string :=
  "Error: " +:+ exn_text error.

Definition err_ui (error : exn) : string :=
  "UI error: " +:+ exn_text error.

Definition module_title (name : string) : string :=
  "Module: " +:+ name.

Definition unreadable : string := "<Unreadable>".

Definition no_desc : string := "No description available.".

End STRINGS.

(** ** The string methods the program calls *)

Module Py.

(** [str.isspace] on one character, for code points below 256. *)
Definition isspace (c : ascii) : bool :=
  let n := N_of_ascii c in
  ((9 <=? n) && (n <=? 13) || (28 <=? n) && (n <=? 32)
   || (n =? 133) || (n =? 160))%N.

Fixpoint lstrip (s : string) : string :=
  match s with
  | "" => ""
  | String c s' => if isspace c then lstrip s' else s
  end.

Fixpoint rstrip (s : string) : string :=
  match s with
  | "" => ""
  | String c s' =>
      match rstrip s' with
      | "" => if isspace c then "" else String c ""
      | r => String c r
      end
  end.

(** [s.strip()] *)
Definition strip (s : string) : string := rstrip (lstrip s).

(** [s.split()]: the maximal runs of characters that are not whitespace. *)
Fixpoint split (s : string) : list string :=
  match s with
  | "" => []
  | String c s' =>
      if isspace c then split s'
      else
        match s' with
        | "" => [String c ""]
        | String c' _ =>
            if isspace c' then String c "" :: split s'
            else
              match split s' with
              | w :: ws => String c w :: ws
              | [] => [String c ""]
              end
        end
  end.

(** The line boundaries of [str.splitlines], for code points below 256. *)
Definition is_linebreak (c : ascii) : bool :=
  let n := N_of_ascii c in
  ((10 <=? n) && (n <=? 13) || (28 <=? n) && (n <=? 30) || (n =? 133))%N.

(** [s.splitlines()]: a carriage return followed by a line feed is one
    boundary, and no empty last line is produced. *)
Fixpoint splitlines (s : string) : list string :=
  match s with
  | "" => []
  | String c s' =>
      if is_linebreak c then
        match s' with
        | String c' s'' =>
            if (N_of_ascii c =? 13)%N && (N_of_ascii c' =? 10)%N
            then "" :: splitlines s''
            else "" :: splitlines s'
        | "" => [""]
        end
      else
        match splitlines s' with
        | l :: ls => String c l :: ls
        | [] => [String c ""]
        end
  end.

(** [s.split(sep, 1)] for a separator of one character, when [sep in s]:
    the text before the first [sep] and the text after it.  [None] is the
    case [sep not in s]. *)
Fixpoint split_once (sep : ascii) (s : string) : option (string * string) :=
  match s with
  | "" => None
  | String c s' =>
      if Ascii.eqb c sep then Some ("", s')
      else
        match split_once sep s' with
        | Some (a, b) => Some (String c a, b)
        | None => None
        end
  end.

(** [s.startswith(c)] for one character. *)
Definition startswith (c : ascii) (s : string) : bool :=
  match s with
  | String c' _ => Ascii.eqb c' c
  | "" => false
  end.

(** [len(s)] *)
Definition len (s : string) : Z := Z.of_nat (String.length s).

(** A stable insertion sort: the order [sorted] and [heapq.nlargest]
    give, elements that compare equal keeping their relative order. *)
Section sort_by.
Context {A : Type} (le : A → A → bool).

Fixpoint insert_by (x : A) (l : list A) : list A :=
  match l with
  | [] => [x]
  | y :: l' => if le x y then x :: l else y :: insert_by x l'
  end.

Fixpoint sort_by (l : list A) : list A :=
  match l with
  | [] => []
  | x :: l' => insert_by x (sort_by l')
  end.

End sort_by.

(** [sorted(names)] on strings, compared character by character. *)
Definition sorted (names : list string) : list string := sort_by String.leb names.

End Py.

(** ** The operating system, as the program sees it *)

(** One field for each call the program makes.  [exists_] and [is_file]
    answer [False] where the path is missing; [iterdir], [st_mode]
    ([p.stat().st_mode]) and [read_text] can raise [OSError]; [glob] gives
    the names of the entries of a directory that match a pattern, in the
    order of the directory listing; [run] is [subprocess.run] with
    captured text output and gives the return code and the standard
    output.  An [exists], [is_file] or [glob] that raises (a permission
    error on the way to the path) has no place in this record: what is
    proved is proved for calls where these three answer. *)
Record World : Type := {
  exists_ : string → bool;
  is_file : string → bool;
  iterdir : string → res (list string);
  st_mode : string → res Z;
  read_text : string → res string;
  glob : string → string → list string;
  run : list string → res (Z * string)
}.

(** [dir / name] *)
Definition path_join (dir name : string) : string := dir +:+ "/" +:+ name.

Definition SYS_MODULE : string := "/sys/module".
Definition MODPROBE_D : string := "/etc/modprobe.d".

(** ** Records of the model *)

(** One entry of a [persistent] list. *)
Record Persisted : Type := {
  value : string;
  file : string;
  line : string
}.

(** A record of [read_sysfs_params]. *)
Record SysfsParam : Type := {
  sp_name : string;
  sp_current : string;
  sp_writable : bool;
  sp_path : string
}.

(** A record of the model: the live record with [desc] and [persistent]. *)
Record Param : Type := {
  name : string;
  current : string;
  writable : bool;
  path : string;
  desc : string;
  persistent : list Persisted
}.

Record Model : Type := {
  module : string;
  params : list Param
}.

#[global] Instance Persisted_eq_dec : EqDecision Persisted.
Proof. solve_decision. Defined.

#[global] Instance Param_eq_dec : EqDecision Param.
Proof. solve_decision. Defined.

(** ** Data access *)

(** [read_sysfs_params]: the loop over the sorted listing.  A [stat]
    that raises is not caught and ends the call; a [read_text] that raises
    is caught and gives the sentinel. *)
Definition read_param (w : World) (param_dir p_name : string) : res SysfsParam :=
  let p := path_join param_dir p_name in
  mode ← st_mode w p;
  let is_globally_writable := negb (Z.land mode 146 (* 0o222 *) =? 0) in
  let current :=
    match read_text w p with
    | Ok text => Py.strip text
    | Raise _ => STRINGS.unreadable
    end in
  Ok {| sp_name := p_name;
        sp_current := current;
        sp_writable := is_globally_writable;
        sp_path := p |}.

Fixpoint read_params_loop (w : World) (param_dir : string) (names : list string)
  : res (list SysfsParam) :=
  match names with
  | [] => Ok []
  | p_name :: rest =>
      if negb (is_file w (path_join param_dir p_name))
      then read_params_loop w param_dir rest
      else
        r ← read_param w param_dir p_name;
        rs ← read_params_loop w param_dir rest;
        Ok (r :: rs)
  end.

Definition param_dir_of (module_name : string) : string :=
  path_join (path_join SYS_MODULE module_name) "parameters".

Definition read_sysfs_params (w : World) (module_name : string) : res (list SysfsParam) :=
  let param_dir := param_dir_of module_name in
  if negb (exists_ w param_dir) then Ok []
  else
    entries ← iterdir w param_dir;
    read_params_loop w param_dir (Py.sorted entries).

(** [get_modinfo_details]: the whole body is inside [try], so the call
    never raises. *)
Definition modinfo_line (out : gmap string string) (l : string) : gmap string string :=
  let clean := Py.strip l in
  match Py.split_once ":" clean with
  | None => out
  | Some (n, d) => <[Py.strip n := Py.strip d]> out
  end.

Definition get_modinfo_details (w : World) (module_name : string) : gmap string string :=
  match run w ["modinfo"; "-p"; module_name] with
  | Raise _ => ∅
  | Ok (returncode, stdout) =>
      if negb (returncode =? 0) then ∅
      else fold_left modinfo_line (Py.splitlines stdout) ∅
  end.

(** [get_etc_configs] *)

(** [configs.setdefault(p_name, []).append(entry)] *)
Definition setdefault_append (p_name : string) (entry : Persisted)
    (configs : gmap string (list Persisted)) : gmap string (list Persisted) :=
  <[p_name := default [] (configs !! p_name) ++ [entry]]> configs.

(** The body of [for part in parts[2:]]. *)
Definition etc_part (file_name stripped : string)
    (configs : gmap string (list Persisted)) (part : string)
  : gmap string (list Persisted) :=
  match Py.split_once "=" part with
  | Some (p_name, p_value) =>
      setdefault_append p_name
        {| value := p_value; file := file_name; line := stripped |} configs
  | None => configs
  end.

(** The body of [for raw in ....splitlines()]. *)
Definition etc_line (module_name file_name : string)
    (configs : gmap string (list Persisted)) (raw : string)
  : gmap string (list Persisted) :=
  let line := Py.strip raw in
  if String.eqb line "" || Py.startswith "#" line then configs
  else
    let parts := Py.split line in
    if (3 <=? length parts)%nat
       && bool_decide (parts !! 0%nat = Some "options")
       && bool_decide (parts !! 1%nat = Some module_name)
    then fold_left (etc_part file_name line) (drop 2 parts) configs
    else configs.

(** The body of [for config_file in MODPROBE_D.glob("*.conf")]: no call
    after [read_text] can raise, so a file is read whole or not at all. *)
Definition etc_file (w : World) (module_name : string)
    (configs : gmap string (list Persisted)) (file_name : string)
  : gmap string (list Persisted) :=
  match read_text w (path_join MODPROBE_D file_name) with
  | Ok text => fold_left (etc_line module_name file_name) (Py.splitlines text) configs
  | Raise _ => configs
  end.

Definition get_etc_configs (w : World) (module_name : string)
  : gmap string (list Persisted) :=
  if negb (exists_ w MODPROBE_D) then ∅
  else fold_left (etc_file w module_name) (glob w MODPROBE_D "*.conf") ∅.

(** [get_module_model] *)
Definition merge_param (descs : gmap string string)
    (etc : gmap string (list Persisted)) (p : SysfsParam) : Param :=
  {| name := sp_name p;
     current := sp_current p;
     writable := sp_writable p;
     path := sp_path p;
     desc := default STRINGS.no_desc (descs !! sp_name p);
     persistent := default [] (etc !! sp_name p) |}.

Definition get_module_model (w : World) (module_name : string) : res Model :=
  let descs := get_modinfo_details w module_name in
  let etc := get_etc_configs w module_name in
  ps ← read_sysfs_params w module_name;
  Ok {| module := module_name; params := merge_param descs etc <$> ps |}.

(** ** Fuzzy ranking *)

(** The order of the ranking: the higher score first. *)
Definition score_ge (a b : string * Z) : bool := a.2 >=? b.2.

(** Modelled from the spec: [process.extract] of the thefuzz library
    (§4.6: every name scored, stable sort by descending score, the first
    [limit] kept), which the repository imports and does not contain.
    The similarity metric is the argument [scorer]. *)
Definition extract (scorer : string → string → Z) (query : string)
    (choices : list string) (limit : nat) : list (string * Z) :=
  take limit (Py.sort_by score_ge ((λ c, (c, scorer query c)) <$> choices)).

(** ** The application state *)

Record Notification : Type := {
  message : string;
  severity : string
}.

Record ListView (A : Type) : Type := {
  children : list A;
  index : option nat
}.

Arguments children {A} _.
Arguments index {A} _.

(** A row of [#param_list]; [param_data] is the attribute that
    [_load_details] attaches. *)
Record ListItem : Type := {
  param_data : option Param
}.

Record EditModal : Type := {
  param_name : string;
  current_value : string;
  param_path : string
}.

(** A pushed screen with the record [p] its callback [check_edit] closes
    over. *)
Record Screen : Type := {
  modal : EditModal;
  callback_p : Param
}.

(** [writes] lists the calls of [write_text], oldest first. *)
Record App : Type := {
  world : World;
  writes : list (string * string);
  all_modules : list string;
  filtered : list string;
  current_model : option Model;
  left : ListView string;
  param_list : ListView ListItem;
  mod_title : string;
  notifications : list Notification;
  screens : list Screen
}.

Definition set_world (w : World) (s : App) : App :=
  {| world := w; writes := writes s; all_modules := all_modules s;
     filtered := filtered s; current_model := current_model s; left := left s;
     param_list := param_list s; mod_title := mod_title s;
     notifications := notifications s; screens := screens s |}.

Definition set_writes (l : list (string * string)) (s : App) : App :=
  {| world := world s; writes := l; all_modules := all_modules s;
     filtered := filtered s; current_model := current_model s; left := left s;
     param_list := param_list s; mod_title := mod_title s;
     notifications := notifications s; screens := screens s |}.

Definition set_filtered (l : list string) (s : App) : App :=
  {| world := world s; writes := writes s; all_modules := all_modules s;
     filtered := l; current_model := current_model s; left := left s;
     param_list := param_list s; mod_title := mod_title s;
     notifications := notifications s; screens := screens s |}.

Definition set_current_model (m : option Model) (s : App) : App :=
  {| world := world s; writes := writes s; all_modules := all_modules s;
     filtered := filtered s; current_model := m; left := left s;
     param_list := param_list s; mod_title := mod_title s;
     notifications := notifications s; screens := screens s |}.

Definition set_left (lv : ListView string) (s : App) : App :=
  {| world := world s; writes := writes s; all_modules := all_modules s;
     filtered := filtered s; current_model := current_model s; left := lv;
     param_list := param_list s; mod_title := mod_title s;
     notifications := notifications s; screens := screens s |}.

Definition set_param_list (lv : ListView ListItem) (s : App) : App :=
  {| world := world s; writes := writes s; all_modules := all_modules s;
     filtered := filtered s; current_model := current_model s; left := left s;
     param_list := lv; mod_title := mod_title s;
     notifications := notifications s; screens := screens s |}.

Definition set_mod_title (t : string) (s : App) : App :=
  {| world := world s; writes := writes s; all_modules := all_modules s;
     filtered := filtered s; current_model := current_model s; left := left s;
     param_list := param_list s; mod_title := t;
     notifications := notifications s; screens := screens s |}.

Definition set_notifications (l : list Notification) (s : App) : App :=
  {| world := world s; writes := writes s; all_modules := all_modules s;
     filtered := filtered s; current_model := current_model s; left := left s;
     param_list := param_list s; mod_title := mod_title s;
     notifications := l; screens := screens s |}.

Definition set_screens (l : list Screen) (s : App) : App :=
  {| world := world s; writes := writes s; all_modules := all_modules s;
     filtered := filtered s; current_model := current_model s; left := left s;
     param_list := param_list s; mod_title := mod_title s;
     notifications := notifications s; screens := l |}.

(** ** The monad of the handlers: state, and exceptions that keep it *)

Definition M (A : Type) : Type := App → res A * App.

#[global] Instance M_ret : MRet M := λ A a s, (Ok a, s).

#[global] Instance M_bind : MBind M := λ A B k m s,
  match m s with
  | (Ok a, s') => k a s'
  | (Raise e, s') => (Raise e, s')
  end.

Definition raise {A} (e : exn) : M A := λ s, (Raise e, s).

(** [try: body  except Exception as e: handler] *)
Definition try_except {A} (body : M A) (handler : exn → M A) : M A := λ s,
  match body s with
  | (Ok a, s') => (Ok a, s')
  | (Raise e, s') => handler e s'
  end.

Definition gets {A} (f : App → A) : M A := λ s, (Ok (f s), s).

Definition modify (f : App → App) : M unit := λ s, (Ok tt, f s).

Definition lift_res {A} (r : res A) : M A := λ s, (r, s).

(** ** The handlers *)

Section KModUI.

(** [os_write_text w path text] is [Path(path).write_text(text)] in the
    world [w]: the world after the call, and the exception if it raised.
    [scorer] is the similarity metric of [process.extract]. *)
Variable os_write_text : World → string → string → World * option exn.
Variable scorer : string → string → Z.

(** [self.notify(message, severity=severity)] *)
Definition notify (msg sev : string) : M unit :=
  modify (λ s, set_notifications
                 (notifications s ++ [{| message := msg; severity := sev |}]) s).

Definition write_text (p text : string) : M unit := λ s,
  let '(w', r) := os_write_text (world s) p text in
  let s' := set_world w' (set_writes (writes s ++ [(p, text)]) s) in
  match r with
  | None => (Ok tt, s')
  | Some e => (Raise e, s')
  end.

(** [self.push_screen(EditModal(...), check_edit)] *)
Definition push_screen (m : EditModal) (p : Param) : M unit :=
  modify (λ s, set_screens ({| modal := m; callback_p := p |} :: screens s) s).

(** [lv.clear()] and [lv.append(item)].  The toolkit moves the highlight
    by itself as well (keys, mounting); those moves are not in the source
    and arrive as [highlight]. *)
Definition lv_clear {A} (lv : ListView A) : ListView A :=
  {| children := []; index := None |}.

Definition lv_append {A} (item : A) (lv : ListView A) : ListView A :=
  {| children := children lv ++ [item]; index := index lv |}.

Definition lv_set_index {A} (i : option nat) (lv : ListView A) : ListView A :=
  {| children := children lv; index := i |}.

Definition highlight (i : option nat) : M unit :=
  modify (λ s, set_param_list (lv_set_index i (param_list s)) s).

(** [_load_details] *)
Definition _load_details (module_name : string) : M unit :=
  w ← gets world;
  model ← lift_res (get_module_model w module_name);
  modify (set_current_model (Some model));;
  modify (set_mod_title ("[b][u]" +:+ STRINGS.module_title module_name +:+ "[/u][/b]"));;
  modify (λ s, set_param_list (lv_clear (param_list s)) s);;
  modify (λ s, set_param_list
                 (fold_left (λ lv p, lv_append {| param_data := Some p |} lv)
                            (params model) (param_list s)) s).

(** [_render_list] *)
Definition _render_list (names : list string) : M unit :=
  modify (λ s, set_left (lv_clear (left s)) s);;
  modify (λ s, set_left (fold_left (λ lv n, lv_append n lv) names (left s)) s);;
  match names with
  | [] => mret tt
  | first :: _ =>
      modify (λ s, set_left (lv_set_index (Some 0%nat) (left s)) s);;
      _load_details first
  end.

(** [check_edit], the callback of the modal, closed over [p]. *)
Definition check_edit (p : Param) (new_value : option string) : M unit :=
  match new_value with
  | None => mret tt
  | Some v =>
      try_except
        (write_text (path p) v;;
         notify (STRINGS.ok_updated (name p) v) "information";;
         cm ← gets current_model;
         match cm with
         | Some m => _load_details (module m)
         | None => raise (Exn "'KModUI' object has no attribute 'current_model'")
         end)
        (λ e, notify (STRINGS.err_write e) "error")
  end.

(** [action_edit_parameter] *)
Definition action_edit_parameter : M unit :=
  try_except
    (plist ← gets param_list;
     match index plist with
     | None => notify STRINGS.warn_select_param "warning"
     | Some i =>
         match children plist !! i with
         | None => raise (Exn "list index out of range")
         | Some selected_item =>
             match param_data selected_item with
             | None => mret tt
             | Some p =>
                 if negb (writable p)
                 then notify (STRINGS.warn_not_writable (name p)) "warning"
                 else push_screen {| param_name := name p;
                                     current_value := current p;
                                     param_path := path p |} p
             end
         end
     end)
    (λ e, notify (STRINGS.err_ui e) "error").

(** [Screen.dismiss(result)]: the screen is popped and its callback
    called with the result. *)
Definition dismiss (result : option string) : M unit :=
  st ← gets screens;
  match st with
  | [] => mret tt
  | top :: rest => modify (set_screens rest);; check_edit (callback_p top) result
  end.

(** [EditModal.on_button_pressed]; [input_value] is the content of
    [#new_value_input] when the button is pressed. *)
Definition on_button_pressed (button_id input_value : string) : M unit :=
  if String.eqb button_id "save" then dismiss (Some input_value)
  else dismiss None.

(** [Input.Changed] *)
Record InputChanged : Type := {
  input_id : string;
  ev_value : string
}.

(** [on_input_changed] *)
Definition on_input_changed (event : InputChanged) : M unit :=
  if negb (String.eqb (input_id event) "search") then mret tt
  else
    let q := Py.strip (ev_value event) in
    if String.eqb q "" then
      all ← gets all_modules;
      modify (set_filtered all);;
      _render_list all
    else
      all ← gets all_modules;
      let results := extract scorer q all 200 in
      let threshold := if Py.len q >=? 2 then 65 else 50 in
      let ranked := (filter (λ r, threshold ≤ r.2) results).*1 in
      let ranked := match ranked with
                    | [] => (take 20 results).*1
                    | _ => ranked
                    end in
      modify (set_filtered ranked);;
      _render_list ranked.

(** [ListView.Selected] *)
Record Selected : Type := {
  list_view_id : string;
  item_data : option string
}.

(** [on_list_view_selected] *)
Definition on_list_view_selected (event : Selected) : M unit :=
  if String.eqb (list_view_id event) "left" then
    match item_data event with
    | Some module_name =>
        if String.eqb module_name "" then mret tt else _load_details module_name
    | None => mret tt
    end
  else if String.eqb (list_view_id event) "param_list" then action_edit_parameter
  else mret tt.

End KModUI.

(** ** Events of the presentation adapter *)

Inductive Event : Type :=
| EditAction
| ButtonPressed (button_id input_value : string)
| Changed (event : InputChanged)
| ListSelected (event : Selected)
| Highlight (i : option nat).

Definition dispatch (os_write_text : World → string → string → World * option exn)
    (scorer : string → string → Z) (ev : Event) : M unit :=
  match ev with
  | EditAction => action_edit_parameter
  | ButtonPressed b v => on_button_pressed os_write_text b v
  | Changed e => on_input_changed scorer e
  | ListSelected e => on_list_view_selected e
  | Highlight i => highlight i
  end.

(** The state after a sequence of events; an exception that leaves a
    handler ends the application. *)
Fixpoint run_events (os_write_text : World → string → string → World * option exn)
    (scorer : string → string → Z) (evs : list Event) (s : App) : App :=
  match evs with
  | [] => s
  | ev :: rest =>
      match dispatch os_write_text scorer ev s with
      | (Ok _, s') => run_events os_write_text scorer rest s'
      | (Raise _, s') => s'
      end
  end.

(** ** Vocabulary of the statements *)

(** [needle in text] *)
Definition contains (needle text : string) : Prop :=
  ∃ before after, text = before +:+ needle +:+ after.

(** Every character of [s] is whitespace. *)
Fixpoint all_isspace (s : string) : bool :=
  match s with
  | "" => true
  | String c s' => Py.isspace c && all_isspace s'
  end.

(** The world [w] with another [read_text]. *)
Definition with_read_text (rd : string → res string) (w : World) : World :=
  {| exists_ := exists_ w; is_file := is_file w; iterdir := iterdir w;
     st_mode := st_mode w; read_text := rd; glob := glob w; run := run w |}.

(** The world [w] in which reading the file [p] raises [e]. *)
Definition fail_read (p : string) (e : exn) (w : World) : World :=
  with_read_text (λ q, if String.eqb q p then Raise e else read_text w q) w.

(** The record [r] with the sentinel as its value when its file is [p]. *)
Definition mark_unreadable (p : string) (r : SysfsParam) : SysfsParam :=
  if String.eqb (sp_path r) p
  then {| sp_name := sp_name r; sp_current := STRINGS.unreadable;
          sp_writable := sp_writable r; sp_path := sp_path r |}
  else r.

(** The result [r] with [f] applied to what it returns. *)
Definition res_map {A B} (f : A → B) (r : res A) : res B :=
  match r with
  | Ok a => Ok (f a)
  | Raise e => Raise e
  end.

(** The write-permission bits of a mode: owner, group, other. *)
Definition any_write_bit (mode : Z) : Prop :=
  Z.testbit mode 7 = true ∨ Z.testbit mode 4 = true ∨ Z.testbit mode 1 = true.

(** *** The persisted overrides, as the specification words them

    §4.4: blank lines and lines that start with [#] are skipped; a line
    counts when it has at least three tokens, the first is [options] and
    the second the module name; each later token with an [=] gives an
    entry under the text before the first [=]; a file that cannot be read
    is skipped. *)
Definition spec_token_entry (file_name stripped token : string)
  : option (string * Persisted) :=
  match Py.split_once "=" token with
  | Some (k, v) => Some (k, {| value := v; file := file_name; line := stripped |})
  | None => None
  end.

Definition spec_line_entries (module_name file_name raw : string)
  : list (string * Persisted) :=
  let stripped := Py.strip raw in
  if String.eqb stripped "" || Py.startswith "#" stripped then []
  else
    match Py.split stripped with
    | t0 :: t1 :: t2 :: rest =>
        if bool_decide (t0 = "options") && bool_decide (t1 = module_name)
        then omap (spec_token_entry file_name stripped) (t2 :: rest)
        else []
    | _ => []
    end.

Definition spec_file_entries (w : World) (module_name file_name : string)
  : list (string * Persisted) :=
  match read_text w (path_join MODPROBE_D file_name) with
  | Ok text => Py.splitlines text ≫= spec_line_entries module_name file_name
  | Raise _ => []
  end.

Definition spec_entries (w : World) (module_name : string)
  : list (string * Persisted) :=
  if exists_ w MODPROBE_D
  then glob w MODPROBE_D "*.conf" ≫= spec_file_entries w module_name
  else [].

(** The entries filed under [key], in order. *)
Definition entries_of (key : string) (l : list (string * Persisted)) : list Persisted :=
  (filter (λ kv, kv.1 = key) l).*2.

(** A key is in the mapping when some entry is filed under it. *)
Definition present (l : list Persisted) : option (list Persisted) :=
  match l with
  | [] => None
  | _ => Some l
  end.

(** [configs] holds the entries [l], each key with its entries in order. *)
Definition holds (configs : gmap string (list Persisted))
    (l : list (string * Persisted)) : Prop :=
  ∀ key, configs !! key = present (entries_of key l).

(** ** Vocabulary of the handlers *)

(** The state [_load_details] leaves when the builder returns [model]. *)
Definition loaded (module_name : string) (model : Model) (s : App) : App :=
  set_param_list
    {| children := (λ p, {| param_data := Some p |}) <$> params model;
       index := None |}
    (set_mod_title ("[b][u]" +:+ STRINGS.module_title module_name +:+ "[/u][/b]")
       (set_current_model (Some model) s)).

(** What a handler leaves alone. *)
Definition same_session (s s' : App) : Prop :=
  world s' = world s ∧ writes s' = writes s ∧ screens s' = screens s
  ∧ all_modules s' = all_modules s ∧ notifications s' = notifications s.

(** The names [on_input_changed] ranks for the stripped query [q]. *)
Definition ranked (scorer : string → string → Z) (q : string) (M : list string)
  : list string :=
  let results := extract scorer q M 200 in
  let threshold := if Py.len q >=? 2 then 65 else 50 in
  let kept := (filter (λ r, threshold ≤ r.2) results).*1 in
  match kept with
  | [] => (take 20 results).*1
  | _ => kept
  end.

(** Descending order of score. *)
Definition score_desc (a b : string * Z) : Prop := b.2 ≤ a.2.

(** The state after a [write_text] that was logged. *)
Definition written (w' : World) (p v : string) (s : App) : App :=
  set_world w' (set_writes (writes s ++ [(p, v)]) s).

(** ** A small world for the examples

    Module [e1000e] with three parameter files, [debug] writable by its
    owner and [IntMode] not readable; one file of persisted options; a
    documentation tool that knows [debug] and [copybreak]. *)

Definition LF : string := String "010"%char "".

Definition demo_param_dir : string := "/sys/module/e1000e/parameters".

Definition demo_world : World := {|
  exists_ := λ p, String.eqb p demo_param_dir || String.eqb p MODPROBE_D;
  is_file := λ p, negb (String.eqb p "/sys/module/e1000e/parameters/sub");
  iterdir := λ p,
    if String.eqb p demo_param_dir
    then Ok ["debug"; "sub"; "copybreak"; "IntMode"]
    else Raise (Exn "[Errno 2] No such file or directory");
  st_mode := λ p,
    if String.eqb p "/sys/module/e1000e/parameters/debug"
    then Ok 33188 (* 0o100644 *)
    else Ok 33060 (* 0o100444 *);
  read_text := λ p,
    if String.eqb p "/sys/module/e1000e/parameters/debug" then Ok ("16" +:+ LF)
    else if String.eqb p "/sys/module/e1000e/parameters/copybreak" then Ok ("256" +:+ LF)
    else if String.eqb p "/etc/modprobe.d/a.conf"
    then Ok ("# tuning" +:+ LF +:+ "options e1000e InterruptThrottleRate=3000 debug=4" +:+ LF)
    else Raise (Exn "[Errno 13] Permission denied");
  glob := λ d pat,
    if String.eqb d MODPROBE_D then ["a.conf"; "locked.conf"] else [];
  run := λ argv,
    Ok (0, "debug:Debug level (0=none,...,16=all) (int)" +:+ LF
           +:+ "copybreak:Maximum size of packet that is copied (uint)" +:+ LF
           +:+ "gone:A parameter of an older version (int)" +:+ LF)
|}.

Definition demo_debug : SysfsParam :=
  {| sp_name := "debug"; sp_current := "16"; sp_writable := true;
     sp_path := "/sys/module/e1000e/parameters/debug" |}.

Definition demo_copybreak : SysfsParam :=
  {| sp_name := "copybreak"; sp_current := "256"; sp_writable := false;
     sp_path := "/sys/module/e1000e/parameters/copybreak" |}.

Definition demo_IntMode : SysfsParam :=
  {| sp_name := "IntMode"; sp_current := "<Unreadable>"; sp_writable := false;
     sp_path := "/sys/module/e1000e/parameters/IntMode" |}.

Definition demo_model : Model :=
  {| module := "e1000e";
     params :=
       [ {| name := "IntMode"; current := "<Unreadable>"; writable := false;
            path := "/sys/module/e1000e/parameters/IntMode";
            desc := "No description available."; persistent := [] |};
         {| name := "copybreak"; current := "256"; writable := false;
            path := "/sys/module/e1000e/parameters/copybreak";
            desc := "Maximum size of packet that is copied (uint)";
            persistent := [] |};
         {| name := "debug"; current := "16"; writable := true;
            path := "/sys/module/e1000e/parameters/debug";
            desc := "Debug level (0=none,...,16=all) (int)";
            persistent :=
              [ {| value := "4"; file := "a.conf";
                   line := "options e1000e InterruptThrottleRate=3000 debug=4" |} ] |} ] |}.

(** [demo_world] at the moment the file [IntMode] has gone between the
    [is_file] test and the [stat] call (its module is being unloaded). *)
Definition vanishing_world : World := {|
  exists_ := exists_ demo_world;
  is_file := is_file demo_world;
  iterdir := iterdir demo_world;
  st_mode := λ p,
    if String.eqb p "/sys/module/e1000e/parameters/IntMode"
    then Raise (Exn "[Errno 2] No such file or directory")
    else st_mode demo_world p;
  read_text := read_text demo_world;
  glob := glob demo_world;
  run := run demo_world
|}.

(** A world with none of the three sources: no parameter directory, no
    configuration directory, and a documentation tool that cannot be
    started. *)
Definition bare_world : World := {|
  exists_ := λ _, false;
  is_file := λ _, false;
  iterdir := λ _, Raise (Exn "[Errno 2] No such file or directory");
  st_mode := λ _, Raise (Exn "[Errno 2] No such file or directory");
  read_text := λ _, Raise (Exn "[Errno 2] No such file or directory");
  glob := λ _ _, [];
  run := λ _, Raise (Exn "[Errno 2] No such file or directory: 'modinfo'")
|}.

(** A toy metric: 90 when the query is a prefix of the name, 60 when the
    first character of the query occurs in the name, 0 otherwise. *)
Definition demo_scorer (q c : string) : Z :=
  if String.prefix q c then 90
  else
    match q with
    | String a _ => if Py.split_once a c is Some _ then 60 else 0
    | "" => 0
    end.

(** A kernel that accepts writes to [debug] and stores them with a line
    feed, and refuses every other write. *)
Definition demo_os_write (w : World) (p text : string) : World * option exn :=
  if String.eqb p "/sys/module/e1000e/parameters/debug"
  then (with_read_text
          (λ q, if String.eqb q p then Ok (text +:+ LF) else read_text w q) w,
        None)
  else (w, Some (Exn "[Errno 13] Permission denied")).

Definition demo_app : App := {|
  world := demo_world;
  writes := [];
  all_modules := ["ahci"; "e1000"; "e1000e"; "ext4"; "snd_hda"];
  filtered := ["e1000"; "e1000e"];
  current_model := Some demo_model;
  left := {| children := ["e1000"; "e1000e"]; index := Some 1%nat |};
  param_list := {| children := (λ p, {| param_data := Some p |}) <$> params demo_model;
                   index := Some 1%nat |};
  mod_title := "[b][u]Module: e1000e[/u][/b]";
  notifications := [];
  screens := []
|}.

Definition demo_query_e10 : InputChanged := {| input_id := "search"; ev_value := "e10" |}.

(** One letter between two spaces. *)
Definition demo_query_a : InputChanged := {| input_id := "search"; ev_value := " a " |}.

(** The row [debug] of [demo_model], and [copybreak], which is read-only. *)
Definition demo_debug_param : Param :=
  {| name := "debug"; current := "16"; writable := true;
     path := "/sys/module/e1000e/parameters/debug";
     desc := "Debug level (0=none,...,16=all) (int)";
     persistent :=
       [ {| value := "4"; file := "a.conf";
            line := "options e1000e InterruptThrottleRate=3000 debug=4" |} ] |}.

Definition demo_copybreak_param : Param :=
  {| name := "copybreak"; current := "256"; writable := false;
     path := "/sys/module/e1000e/parameters/copybreak";
     desc := "Maximum size of packet that is copied (uint)";
     persistent := [] |}.

(** [demo_world] after [8] has been written to [debug]. *)
Definition demo_world_written : World :=
  (demo_os_write demo_world "/sys/module/e1000e/parameters/debug" "8").1.

(** Every open prompt was opened on a record that is writable. *)
Definition prompts_writable (s : App) : Prop :=
  Forall (λ sc, writable (callback_p sc) = true) (screens s).

(** The rows of [#param_list] either stay or are those of a model built
    in the world of the new state. *)
Definition rows_from (s s' : App) : Prop :=
  children (param_list s') = children (param_list s)
  ∨ ∃ m model,
      get_module_model (world s') m = Ok model
      ∧ children (param_list s')
        = (λ p, {| param_data := Some p |}) <$> params model.

(** The file [π] is out of reach in the state [s]: the world is one of
    [W], no row for [π] is writable, no open prompt is on [π], and no
    write to [π] has been made. *)
Definition out_of_reach (W : World → Prop) (π : string) (s : App) : Prop :=
  W (world s)
  ∧ (∀ item p, item ∈ children (param_list s) → param_data item = Some p →
               path p = π → writable p = false)
  ∧ (∀ sc, sc ∈ screens s → path (callback_p sc) ≠ π)
  ∧ (∀ pv, pv ∈ writes s → pv.1 ≠ π).

(** The worlds whose permission bits are those of [demo_world]. *)
Definition demo_modes (w : World) : Prop :=
  ∀ p, st_mode w p = st_mode demo_world p.

(** ** The rest of the program *)

(** [get_loaded_modules]; [is_dir] is [d.is_dir()] on a path, which
    answers [False] where the path is missing or is not a directory. *)
Definition get_loaded_modules (is_dir : string → bool) (w : World) : res (list string) :=
  if negb (exists_ w SYS_MODULE) then Ok []
  else
    entries ← iterdir w SYS_MODULE;
    Ok (Py.sorted (filter (λ d, is_dir (path_join SYS_MODULE d) = true) entries)).

Definition set_all_modules (l : list string) (s : App) : App :=
  {| world := world s; writes := writes s; all_modules := l;
     filtered := filtered s; current_model := current_model s; left := left s;
     param_list := param_list s; mod_title := mod_title s;
     notifications := notifications s; screens := screens s |}.

(** [KModUI.on_mount] *)
Definition on_mount (is_dir : string → bool) : M unit :=
  w ← gets world;
  mods ← lift_res (get_loaded_modules is_dir w);
  modify (set_all_modules mods);;
  modify (set_filtered mods);;
  _render_list mods.

(** [sep.join(lines)] *)
Fixpoint join (sep : string) (lines : list string) : string :=
  match lines with
  | [] => ""
  | [l] => l
  | l :: rest => l +:+ sep +:+ join sep rest
  end.

(** The lines [format_module_details] appends for one parameter. *)
Definition format_param (p : Param) : list string :=
  let rw := if writable p then " (runtime writable)" else "" in
  ["[b]" +:+ name p +:+ "[/b] = " +:+ current p +:+ rw;
   "  Info: " +:+ desc p]
  ++ ((λ item, "  Persistent: " +:+ file item +:+ " -> " +:+ line item)
        <$> persistent p)
  ++ [""].

(** [format_module_details] *)
Definition format_module_details (model : Model) : string :=
  let mod_ := module model in
  match params model with
  | [] =>
      "[b]" +:+ mod_ +:+ "[/b]" +:+ LF +:+ LF
      +:+ "No parameters available (or no sysfs params)."
  | ps =>
      Py.strip (join LF (["[b]" +:+ mod_ +:+ "[/b]"; ""] ++ (ps ≫= format_param)))
  end.

(** *** Vocabulary *)

(** No character of [s] is whitespace. *)
Fixpoint no_space (s : string) : bool :=
  match s with
  | "" => true
  | String c s' => negb (Py.isspace c) && no_space s'
  end.

(** The world [w] with another directory listing. *)
Definition with_iterdir (ls : string → res (list string)) (w : World) : World :=
  {| exists_ := exists_ w; is_file := is_file w; iterdir := ls;
     st_mode := st_mode w; read_text := read_text w; glob := glob w; run := run w |}.

(** The rows [_load_details] makes for a model, and its title. *)
Definition rows (model : Model) : list ListItem :=
  (λ p, {| param_data := Some p |}) <$> params model.

Definition title (module_name : string) : string :=
  "[b][u]" +:+ STRINGS.module_title module_name +:+ "[/u][/b]".

(** The module list on the left is the filtered list, and the filtered
    list is made of loaded modules. *)
Definition list_shown (s : App) : Prop :=
  children (left s) = filtered s ∧ filtered s ⊆ all_modules s.

(** The rows on the right and the title are those of the current model. *)
Definition details_shown (s : App) : Prop :=
  ∀ m, current_model s = Some m →
       children (param_list s) = rows m ∧ mod_title s = title (module m).

(** The prompt [action_edit_parameter] opens on the record [p]. *)
Definition prompt_on (p : Param) : Screen :=
  {| modal := {| param_name := name p; current_value := current p;
                 param_path := path p |};
     callback_p := p |}.

(** A registry with two modules and a stray file. *)
Definition demo_registry : World :=
  with_iterdir
    (λ d, if String.eqb d SYS_MODULE then Ok ["ext4"; "uevent"; "e1000e"]
          else iterdir demo_world d)
    {| exists_ := λ p, String.eqb p SYS_MODULE || exists_ demo_world p;
       is_file := is_file demo_world; iterdir := iterdir demo_world;
       st_mode := st_mode demo_world; read_text := read_text demo_world;
       glob := glob demo_world; run := run demo_world |}.

Definition demo_is_dir (p : string) : bool :=
  String.eqb p "/sys/module/ext4" || String.eqb p "/sys/module/e1000e".

(** The pair a line of [modinfo -p] stands for: the stripped text before
    the first colon and the stripped text after it. *)
Definition modinfo_pair (l : string) : option (string * string) :=
  match Py.split_once ":" (Py.strip l) with
  | Some (n, d) => Some (Py.strip n, Py.strip d)
  | None => None
  end.

(** The descriptions the lines give for [key], in order. *)
Definition descs_of (key : string) (lines : list string) : list string :=
  (filter (λ nd, nd.1 = key) (omap modinfo_pair lines)).*2.

(** The answer of the documentation tool in the world [w]. *)
Definition modinfo_of (w : World) (module_name : string) : res (Z * string) :=
  run w ["modinfo"; "-p"; module_name].

(** The state with one more notification. *)
Definition notified (msg sev : string) (s : App) : App :=
  set_notifications (notifications s ++ [{| message := msg; severity := sev |}]) s.

(** The state whose left list shows [names], the first one highlighted. *)
Definition shown (names : list string) (s : App) : App :=
  set_left {| children := names;
              index := match names with [] => None | _ => Some 0%nat end |} s.

(** [demo_world] without documentation tool and configuration directory. *)
Definition plain_world : World := {|
  exists_ := λ p, String.eqb p demo_param_dir;
  is_file := is_file demo_world;
  iterdir := iterdir demo_world;
  st_mode := st_mode demo_world;
  read_text := read_text demo_world;
  glob := glob demo_world;
  run := λ _, Raise (Exn "[Errno 2] No such file or directory: 'modinfo'")
|}.

(** [demo_app] with the row [debug] highlighted. *)
Definition demo_app_debug : App :=
  set_param_list (lv_set_index (Some 2%nat) (param_list demo_app)) demo_app.

(** One handler either leaves the details or shows those of a model. *)
Definition details_step (s s' : App) : Prop :=
  (current_model s' = current_model s
   ∧ children (param_list s') = children (param_list s)
   ∧ mod_title s' = mod_title s)
  ∨ ∃ model,
      current_model s' = Some model
      ∧ children (param_list s') = rows model
      ∧ mod_title s' = title (module model).

(** One handler either leaves the module list or shows a new filtered
    list made of loaded modules. *)
Definition list_step (s s' : App) : Prop :=
  all_modules s' = all_modules s
  ∧ ((children (left s') = children (left s) ∧ filtered s' = filtered s)
     ∨ (children (left s') = filtered s' ∧ filtered s' ⊆ all_modules s)).

(** [demo_app] in the world where [IntMode] has gone, with one module. *)
Definition demo_app_vanishing : App :=
  set_all_modules ["e1000e"] (set_world vanishing_world demo_app).

Definition demo_query_e : InputChanged := {| input_id := "search"; ev_value := "e" |}.

(** A kernel that accepts every write while the file [IntMode] goes
    away: the world after the write is [vanishing_world]. *)
Definition racing_os_write (w : World) (p text : string) : World * option exn :=
  (vanishing_world, None).

(** * Properties *)

(** ** Sorting *)

Section sort_by_facts.
Context {A : Type} (le : A → A → bool).

Lemma insert_by_perm (x : A) (l : list A) : Py.insert_by le x l ≡ₚ x :: l.
Proof.
  induction l as [|y l IH]; simpl; [done|].
  destruct (le x y); [done|].
  rewrite IH. apply Permutation_swap.
Qed.

Lemma sort_by_perm (l : list A) : Py.sort_by le l ≡ₚ l.
Proof.
  induction l as [|x l IH]; simpl; [done|].
  by rewrite insert_by_perm, IH.
Qed.

Hypothesis le_total : ∀ a b, le a b = false → le b a = true.
Hypothesis le_trans : ∀ a b c, le a b = true → le b c = true → le a c = true.

Lemma insert_by_sorted (x : A) (l : list A) :
  StronglySorted (λ a b, le a b = true) l →
  StronglySorted (λ a b, le a b = true) (Py.insert_by le x l).
Proof.
  induction 1 as [|y l Hl IH Hy]; simpl.
  - repeat constructor.
  - destruct (le x y) eqn:Hxy.
    + constructor; [by constructor|].
      constructor; [done|].
      eapply Forall_impl; [exact Hy|]. intros z Hz. by eapply le_trans.
    + constructor; [done|].
      rewrite insert_by_perm. constructor; [by apply le_total|done].
Qed.

Lemma sort_by_sorted (l : list A) :
  StronglySorted (λ a b, le a b = true) (Py.sort_by le l).
Proof.
  induction l as [|x l IH]; simpl; [constructor|].
  by apply insert_by_sorted.
Qed.

End sort_by_facts.

Lemma leb_le (a b : string) : String.leb a b = true ↔ String.le a b.
Proof. unfold String.le. by rewrite Is_true_true. Qed.

Lemma sorted_perm (names : list string) : Py.sorted names ≡ₚ names.
Proof. apply sort_by_perm. Qed.

Lemma sorted_sorted (names : list string) :
  StronglySorted String.le (Py.sorted names).
Proof.
  assert (StronglySorted (λ a b, String.leb a b = true) (Py.sorted names)) as H.
  { apply sort_by_sorted.
    - intros a b Hab. destruct (String.leb_total a b) as [H|H]; congruence.
    - intros a b c Hab Hbc. apply leb_le. etrans; by apply leb_le. }
  induction H as [|x l Hl IH Hx]; constructor; [done|].
  eapply Forall_impl; [exact Hx|]. intros y. by rewrite leb_le.
Qed.

Lemma filter_sorted {A} (R : relation A) (P : A → Prop) `{∀ x, Decision (P x)}
    (l : list A) :
  StronglySorted R l → StronglySorted R (filter P l).
Proof.
  induction 1 as [|x l Hl IH Hx]; [constructor|].
  rewrite filter_cons. case_decide; [|done].
  constructor; [done|].
  rewrite Forall_forall in Hx |- *. intros y [_ Hy]%list_elem_of_filter. auto.
Qed.

(** ** The permission bits *)

Lemma land_write_bits (mode : Z) :
  Z.land mode 146 ≠ 0 ↔ any_write_bit mode.
Proof.
  unfold any_write_bit. split.
  - intros Hne.
    destruct (Z.testbit mode 7) eqn:H7; [by left|].
    destruct (Z.testbit mode 4) eqn:H4; [by right; left|].
    destruct (Z.testbit mode 1) eqn:H1; [by right; right|].
    exfalso. apply Hne. apply Z.bits_inj'. intros n Hn.
    rewrite Z.land_spec, Z.bits_0.
    destruct (decide (n < 8)) as [Hlt|Hge].
    + assert (n = 0 ∨ n = 1 ∨ n = 2 ∨ n = 3 ∨ n = 4 ∨ n = 5 ∨ n = 6 ∨ n = 7)
        as Hc by lia.
      destruct Hc as [->|[->|[->|[->|[->|[->|[->| ->]]]]]]];
        rewrite ?H1, ?H4, ?H7; try done; by rewrite andb_false_r.
    + rewrite (Z.bits_above_log2 146 n); [by rewrite andb_false_r|lia|].
      change (Z.log2 146) with 7. lia.
  - intros Hb Hz.
    assert (∀ n, Z.testbit mode n && Z.testbit 146 n = false) as Hall.
    { intros n. rewrite <- Z.land_spec, Hz. apply Z.bits_0. }
    destruct Hb as [Hb|[Hb|Hb]].
    + specialize (Hall 7). by rewrite Hb in Hall.
    + specialize (Hall 4). by rewrite Hb in Hall.
    + specialize (Hall 1). by rewrite Hb in Hall.
Qed.

(** ** The live parameter reader *)

Lemma read_param_Ok (w : World) (dir n : string) (r : SysfsParam) :
  read_param w dir n = Ok r ↔
  ∃ mode, st_mode w (path_join dir n) = Ok mode ∧
          r = {| sp_name := n;
                 sp_current := match read_text w (path_join dir n) with
                               | Ok text => Py.strip text
                               | Raise _ => STRINGS.unreadable
                               end;
                 sp_writable := negb (Z.land mode 146 =? 0);
                 sp_path := path_join dir n |}.
Proof.
  unfold read_param, mbind, res_mbind. simpl.
  destruct (st_mode w (path_join dir n)) as [mode|e]; simpl.
  - split.
    + intros [= <-]. by exists mode.
    + intros (mode' & [= <-] & ->). done.
  - split; [done|]. by intros (? & ? & _).
Qed.

Lemma read_params_loop_Ok (w : World) (dir : string) (names : list string)
    (ps : list SysfsParam) :
  read_params_loop w dir names = Ok ps →
  Forall2 (λ n r, read_param w dir n = Ok r)
          (filter (λ n, is_file w (path_join dir n) = true) names) ps.
Proof.
  revert ps. induction names as [|n names IH]; intros ps; simpl.
  - intros [= <-]. constructor.
  - rewrite filter_cons.
    destruct (is_file w (path_join dir n)) eqn:Hf; simpl.
    + rewrite ?decide_True by done.
      unfold mbind, res_mbind. simpl.
      destruct (read_param w dir n) as [r|e] eqn:Hr; simpl; [|done].
      destruct (read_params_loop w dir names) as [rs|e]; simpl; [|done].
      intros [= <-]. constructor; [done|]. by apply IH.
    + rewrite ?decide_False by done. apply IH.
Qed.

Lemma read_params_loop_names (w : World) (dir : string) (names : list string)
    (ps : list SysfsParam) :
  read_params_loop w dir names = Ok ps →
  sp_name <$> ps = filter (λ n, is_file w (path_join dir n) = true) names.
Proof.
  intros H%read_params_loop_Ok.
  induction H as [|n r ns rs Hr _ IH]; [done|].
  apply read_param_Ok in Hr as (mode & _ & ->). simpl. by f_equal.
Qed.

(** The loop returns as soon as every regular file it meets can be
    [stat]ed. *)
Lemma read_params_loop_returns (w : World) (dir : string) (names : list string) :
  (∀ n, n ∈ names → is_file w (path_join dir n) = true →
        ∃ mode, st_mode w (path_join dir n) = Ok mode) →
  ∃ ps, read_params_loop w dir names = Ok ps.
Proof.
  induction names as [|n names IH]; intros Hst; simpl; [by eexists|].
  destruct IH as [rs Hrs].
  { intros n' Hn'. apply Hst. by right. }
  destruct (is_file w (path_join dir n)) eqn:Hf; simpl; [|by eexists].
  destruct (Hst n) as [mode Hm]; [by left|done|].
  unfold mbind, res_mbind, read_param. simpl. rewrite Hm. simpl. rewrite Hrs.
  simpl. by eexists.
Qed.

Lemma read_sysfs_params_elem (w : World) (module_name : string)
    (ps : list SysfsParam) (r : SysfsParam) :
  read_sysfs_params w module_name = Ok ps → r ∈ ps →
  read_param w (param_dir_of module_name) (sp_name r) = Ok r.
Proof.
  unfold read_sysfs_params.
  destruct (exists_ w (param_dir_of module_name)); simpl.
  - unfold mbind, res_mbind. simpl.
    destruct (iterdir w (param_dir_of module_name)) as [entries|e]; simpl; [|done].
    intros H%read_params_loop_Ok Hr.
    induction H as [|n r' ns rs Hr' _ IH]; [by apply elem_of_nil in Hr|].
    apply elem_of_cons in Hr as [->|Hr]; [|by apply IH].
    pose proof Hr' as (mode & _ & Heq)%read_param_Ok. by rewrite Heq in Hr' |- *.
  - intros [= <-] Hr. by apply elem_of_nil in Hr.
Qed.

Lemma read_sysfs_params_fields (w : World) (module_name : string)
    (ps : list SysfsParam) (r : SysfsParam) :
  read_sysfs_params w module_name = Ok ps → r ∈ ps →
  ∃ mode,
    st_mode w (sp_path r) = Ok mode
    ∧ sp_path r = path_join (param_dir_of module_name) (sp_name r)
    ∧ sp_writable r = negb (Z.land mode 146 =? 0)
    ∧ sp_current r = match read_text w (sp_path r) with
                     | Ok text => Py.strip text
                     | Raise _ => STRINGS.unreadable
                     end.
Proof.
  intros Hps Hr.
  pose proof (read_sysfs_params_elem _ _ _ _ Hps Hr) as (mode & Hm & Heq)%read_param_Ok.
  exists mode. destruct r as [n c wr pa]. simpl in *.
  injection Heq as Hc Hw Hp. subst pa. done.
Qed.

Lemma read_sysfs_params_names (w : World) (module_name : string)
    (ps : list SysfsParam) :
  read_sysfs_params w module_name = Ok ps →
  if exists_ w (param_dir_of module_name)
  then ∃ entries,
         iterdir w (param_dir_of module_name) = Ok entries
         ∧ sp_name <$> ps
           = filter (λ n, is_file w (path_join (param_dir_of module_name) n) = true)
                    (Py.sorted entries)
  else ps = [].
Proof.
  unfold read_sysfs_params.
  destruct (exists_ w (param_dir_of module_name)); simpl.
  - unfold mbind, res_mbind. simpl.
    destruct (iterdir w (param_dir_of module_name)) as [entries|e]; simpl; [|done].
    intros H%read_params_loop_names. by exists entries.
  - by intros [= <-].
Qed.

Lemma read_sysfs_params_listed (w : World) (module_name : string)
    (ps : list SysfsParam) (entries : list string) (n : string) :
  read_sysfs_params w module_name = Ok ps →
  exists_ w (param_dir_of module_name) = true →
  iterdir w (param_dir_of module_name) = Ok entries →
  n ∈ entries →
  is_file w (path_join (param_dir_of module_name) n) = true →
  ∃ r, r ∈ ps ∧ sp_name r = n.
Proof.
  intros Hps Hex Hit Hn Hf.
  pose proof (read_sysfs_params_names _ _ _ Hps) as Hnames.
  rewrite Hex in Hnames. destruct Hnames as (entries' & Hit' & Hnames).
  rewrite Hit in Hit'. injection Hit' as <-.
  assert (n ∈ sp_name <$> ps) as Hin.
  { rewrite Hnames. apply list_elem_of_filter. split; [done|].
    by rewrite sorted_perm. }
  apply list_elem_of_fmap in Hin as (r & -> & Hr). by exists r.
Qed.

(** The reader's result in a world where only [read_text] differs. *)
Lemma read_params_loop_writable_indep (w : World) (rd : string → res string)
    (dir : string) (names : list string) :
  res_map (fmap sp_writable) (read_params_loop (with_read_text rd w) dir names)
  = res_map (fmap sp_writable) (read_params_loop w dir names).
Proof.
  induction names as [|n names IH]; simpl; [done|].
  destruct (is_file w (path_join dir n)); simpl; [|done].
  unfold mbind, res_mbind, read_param. simpl.
  destruct (st_mode w (path_join dir n)) as [mode|e]; simpl; [|done].
  destruct (read_params_loop (with_read_text rd w) dir names) as [rs1|e1];
    destruct (read_params_loop w dir names) as [rs2|e2]; simpl in *;
    try done.
  injection IH as IH. f_equal. f_equal. exact IH.
Qed.

Lemma read_param_fail_read (w : World) (p : string) (e : exn) (dir n : string) :
  read_param (fail_read p e w) dir n = res_map (mark_unreadable p) (read_param w dir n).
Proof.
  unfold read_param, mbind, res_mbind, mark_unreadable. simpl.
  destruct (st_mode w (path_join dir n)) as [mode|e']; simpl; [|done].
  destruct (String.eqb (path_join dir n) p); simpl; [done|].
  by destruct (read_text w (path_join dir n)).
Qed.

Lemma read_params_loop_fail_read (w : World) (p : string) (e : exn)
    (dir : string) (names : list string) :
  read_params_loop (fail_read p e w) dir names
  = res_map (fmap (mark_unreadable p)) (read_params_loop w dir names).
Proof.
  induction names as [|n names IH]; simpl; [done|].
  destruct (is_file w (path_join dir n)); simpl; [|done].
  unfold mbind, res_mbind. simpl. rewrite read_param_fail_read, IH.
  destruct (read_param w dir n) as [r|e1]; simpl; [|done].
  by destruct (read_params_loop w dir names).
Qed.

Example demo_read_sysfs_params :
  read_sysfs_params demo_world "e1000e" = Ok [demo_IntMode; demo_copybreak; demo_debug].
Proof. reflexivity. Qed.

(** C6: a record of the live reader is writable exactly when the mode of
    its file has one of the write bits of owner, group or other, that is
    [mode & 0o222] is not zero; nothing else enters: whatever reading the
    value gives, the [writable] fields of the records are the same, and
    no call asks who runs the program. *)
Theorem C6_writable_iff_write_bit (w : World) (module_name : string)
    (ps : list SysfsParam) (r : SysfsParam) :
  read_sysfs_params w module_name = Ok ps →
  r ∈ ps →
  ∃ mode,
    st_mode w (sp_path r) = Ok mode
    ∧ (sp_writable r = true ↔ Z.land mode 146 ≠ 0)
    ∧ (sp_writable r = true ↔ any_write_bit mode)
    ∧ ∀ rd, res_map (fmap sp_writable)
              (read_sysfs_params (with_read_text rd w) module_name)
            = Ok (sp_writable <$> ps).
Proof.
  intros Hps Hr.
  destruct (read_sysfs_params_fields _ _ _ _ Hps Hr) as (mode & Hm & _ & Hwr & _).
  exists mode.
  assert (sp_writable r = true ↔ Z.land mode 146 ≠ 0) as Hw.
  { rewrite Hwr, negb_true_iff. apply Z.eqb_neq. }
  split_and!.
  - done.
  - done.
  - by rewrite Hw, land_write_bits.
  - intros rd. revert Hps. unfold read_sysfs_params. simpl.
    destruct (exists_ w (param_dir_of module_name)); simpl.
    + unfold mbind, res_mbind. simpl.
      destruct (iterdir w (param_dir_of module_name)) as [entries|e]; simpl; [|done].
      intros Hps. by rewrite read_params_loop_writable_indep, Hps.
    + by intros [= <-].
Qed.

Lemma C6_writable_iff_write_bit_witness :
  ∃ mode,
    st_mode demo_world (sp_path demo_debug) = Ok mode
    ∧ (sp_writable demo_debug = true ↔ Z.land mode 146 ≠ 0)
    ∧ (sp_writable demo_debug = true ↔ any_write_bit mode)
    ∧ ∀ rd, res_map (fmap sp_writable)
              (read_sysfs_params (with_read_text rd demo_world) "e1000e")
            = Ok (sp_writable <$> [demo_IntMode; demo_copybreak; demo_debug]).
Proof.
  apply (C6_writable_iff_write_bit demo_world "e1000e"
           [demo_IntMode; demo_copybreak; demo_debug] demo_debug).
  - reflexivity.
  - apply elem_of_cons. right. apply elem_of_cons. right. apply elem_of_cons. by left.
Defined.

Lemma read_sysfs_params_fail_read (w : World) (module_name p : string) (e : exn) :
  read_sysfs_params (fail_read p e w) module_name
  = res_map (fmap (mark_unreadable p)) (read_sysfs_params w module_name).
Proof.
  unfold read_sysfs_params. simpl.
  destruct (exists_ w (param_dir_of module_name)); simpl; [|done].
  unfold mbind, res_mbind. simpl.
  destruct (iterdir w (param_dir_of module_name)) as [entries|e']; simpl; [|done].
  apply read_params_loop_fail_read.
Qed.

(** C7: a value read that raises leaves the reader as it was except for
    the record of that file, whose value becomes the sentinel: the reader
    raises in the same cases as before and otherwise gives the same
    records, the one of the unreadable file with the sentinel as value and
    [writable] from the mode of the file; every regular file of the
    listing still has its record. *)
Theorem C7_unreadable_is_isolated (w : World) (module_name p : string) (e : exn) :
  read_sysfs_params (fail_read p e w) module_name
  = res_map (fmap (mark_unreadable p)) (read_sysfs_params w module_name)
  ∧ ∀ ps,
      read_sysfs_params w module_name = Ok ps →
      read_sysfs_params (fail_read p e w) module_name = Ok (mark_unreadable p <$> ps)
      ∧ (∀ r, r ∈ ps → sp_path r = p →
           ∃ mode, st_mode w p = Ok mode
             ∧ mark_unreadable p r =
                 {| sp_name := sp_name r; sp_current := STRINGS.unreadable;
                    sp_writable := negb (Z.land mode 146 =? 0); sp_path := p |})
      ∧ (∀ r, r ∈ ps → sp_path r ≠ p → mark_unreadable p r = r)
      ∧ (∀ r, r ∈ ps → (∃ e', read_text w (sp_path r) = Raise e') →
           sp_current r = STRINGS.unreadable)
      ∧ (∀ entries n,
           exists_ w (param_dir_of module_name) = true →
           iterdir w (param_dir_of module_name) = Ok entries →
           n ∈ entries →
           is_file w (path_join (param_dir_of module_name) n) = true →
           ∃ r, r ∈ mark_unreadable p <$> ps ∧ sp_name r = n).
Proof.
  split; [apply read_sysfs_params_fail_read|].
  intros ps Hps. split_and!.
  - by rewrite read_sysfs_params_fail_read, Hps.
  - intros r Hr Hp.
    destruct (read_sysfs_params_fields _ _ _ _ Hps Hr) as (mode & Hm & _ & Hwr & _).
    exists mode. unfold mark_unreadable.
    rewrite Hp, String.eqb_refl, <- Hwr. by rewrite <- Hp.
  - intros r _ Hp. unfold mark_unreadable.
    by apply String.eqb_neq in Hp as ->.
  - intros r Hr [e' He'].
    destruct (read_sysfs_params_fields _ _ _ _ Hps Hr) as (mode & _ & _ & _ & Hc).
    by rewrite Hc, He'.
  - intros entries n Hex Hit Hn Hf.
    destruct (read_sysfs_params_listed _ _ _ _ _ Hps Hex Hit Hn Hf) as (r & Hr & Hrn).
    exists (mark_unreadable p r). split; [by apply list_elem_of_fmap_2|].
    unfold mark_unreadable. by destruct (String.eqb (sp_path r) p).
Qed.

Lemma C7_unreadable_is_isolated_witness :
  read_sysfs_params demo_world "e1000e" = Ok [demo_IntMode; demo_copybreak; demo_debug]
  ∧ read_sysfs_params
      (fail_read (sp_path demo_copybreak) (Exn "[Errno 5] Input/output error") demo_world)
      "e1000e"
    = Ok (mark_unreadable (sp_path demo_copybreak)
            <$> [demo_IntMode; demo_copybreak; demo_debug]).
Proof.
  split; [reflexivity|].
  apply (C7_unreadable_is_isolated demo_world "e1000e" (sp_path demo_copybreak)
           (Exn "[Errno 5] Input/output error")).
  reflexivity.
Defined.

(** ** The model builder *)

Example demo_get_module_model : get_module_model demo_world "e1000e" = Ok demo_model.
Proof. vm_compute. reflexivity. Qed.

Lemma get_module_model_Ok (w : World) (module_name : string) (ps : list SysfsParam) :
  read_sysfs_params w module_name = Ok ps →
  get_module_model w module_name
  = Ok {| module := module_name;
          params := merge_param (get_modinfo_details w module_name)
                                (get_etc_configs w module_name) <$> ps |}.
Proof. intros Hps. unfold get_module_model, mbind, res_mbind. by rewrite Hps. Qed.

Lemma get_module_model_Raise (w : World) (module_name : string) (e : exn) :
  read_sysfs_params w module_name = Raise e →
  get_module_model w module_name = Raise e.
Proof. intros Hps. unfold get_module_model, mbind, res_mbind. by rewrite Hps. Qed.

(** The builder returns whenever the listing of the parameter directory
    and the [stat] of each of its regular files do. *)
Lemma get_module_model_returns (w : World) (module_name : string) :
  (exists_ w (param_dir_of module_name) = true →
   ∃ entries,
     iterdir w (param_dir_of module_name) = Ok entries
     ∧ ∀ n, n ∈ entries →
            is_file w (path_join (param_dir_of module_name) n) = true →
            ∃ mode, st_mode w (path_join (param_dir_of module_name) n) = Ok mode) →
  ∃ model, get_module_model w module_name = Ok model.
Proof.
  intros H.
  assert (∃ ps, read_sysfs_params w module_name = Ok ps) as [ps Hps].
  { unfold read_sysfs_params.
    destruct (exists_ w (param_dir_of module_name)); simpl; [|by eexists].
    destruct H as (entries & Hit & Hst); [done|].
    unfold mbind, res_mbind. rewrite Hit. simpl.
    apply read_params_loop_returns. intros n Hn. apply Hst.
    by rewrite <- (sorted_perm entries). }
  eexists. by apply get_module_model_Ok.
Qed.

(** With the three sources absent the model has no parameters. *)
Lemma get_module_model_sources_absent (w : World) (module_name : string) :
  exists_ w (param_dir_of module_name) = false →
  get_module_model w module_name = Ok {| module := module_name; params := [] |}.
Proof.
  intros Hex. rewrite (get_module_model_Ok w module_name []); [done|].
  unfold read_sysfs_params. by rewrite Hex.
Qed.

(** C1: when the live reader gives the records [ps], the builder gives a
    model of the module with one record for each of them, in the same
    (name-sorted) order and no other: the names are the regular files of
    the parameter directory, each once; a name that only the
    documentation or the persisted options know is not in the model; the
    description is the documentation entry or the sentinel, and the
    persisted list is the one of the options reader or empty. *)
Theorem C1_model_follows_live_params (w : World) (module_name : string)
    (ps : list SysfsParam) :
  read_sysfs_params w module_name = Ok ps →
  let descs := get_modinfo_details w module_name in
  let etc := get_etc_configs w module_name in
  ∃ model,
    get_module_model w module_name = Ok model
    ∧ module model = module_name
    ∧ name <$> params model = sp_name <$> ps
    ∧ StronglySorted String.le (name <$> params model)
    ∧ (if exists_ w (param_dir_of module_name)
       then ∃ entries,
              iterdir w (param_dir_of module_name) = Ok entries
              ∧ name <$> params model
                ≡ₚ filter (λ n, is_file w (path_join (param_dir_of module_name) n) = true)
                     entries
              ∧ (NoDup entries → NoDup (name <$> params model))
       else params model = [])
    ∧ (∀ n, n ∉ sp_name <$> ps → ∀ r, r ∈ params model → name r ≠ n)
    ∧ (∀ i r, params model !! i = Some r →
         ∃ p, ps !! i = Some p
           ∧ name r = sp_name p ∧ current r = sp_current p
           ∧ writable r = sp_writable p ∧ path r = sp_path p
           ∧ desc r = match descs !! name r with
                      | Some d => d
                      | None => STRINGS.no_desc
                      end
           ∧ persistent r = match etc !! name r with
                            | Some l => l
                            | None => []
                            end).
Proof.
  intros Hps descs etc.
  eexists. split; [by apply get_module_model_Ok|]. simpl. fold descs etc.
  assert (name <$> (merge_param descs etc <$> ps) = sp_name <$> ps) as Hnames.
  { rewrite <- list_fmap_compose. by apply list_fmap_ext. }
  pose proof (read_sysfs_params_names _ _ _ Hps) as Hlive.
  split_and!.
  - done.
  - done.
  - rewrite Hnames.
    destruct (exists_ w (param_dir_of module_name)).
    + destruct Hlive as (entries & _ & ->). apply filter_sorted, sorted_sorted.
    + rewrite Hlive. constructor.
  - destruct (exists_ w (param_dir_of module_name)).
    + destruct Hlive as (entries & Hit & Hl). exists entries.
      rewrite Hnames, Hl. split_and!; [done| |].
      * by rewrite sorted_perm.
      * intros Hnd. apply NoDup_filter. by rewrite sorted_perm.
    + by rewrite Hlive.
  - intros n Hn r Hr Heq. apply Hn. rewrite <- Hnames, <- Heq.
    by apply list_elem_of_fmap_2.
  - intros i r Hi. rewrite list_lookup_fmap in Hi.
    destruct (ps !! i) as [p|] eqn:Hp; [|done].
    injection Hi as <-. by exists p.
Qed.

Lemma C1_model_follows_live_params_witness :
  read_sysfs_params demo_world "e1000e" = Ok [demo_IntMode; demo_copybreak; demo_debug]
  ∧ is_Some (get_modinfo_details demo_world "e1000e" !! "gone")
  ∧ is_Some (get_etc_configs demo_world "e1000e" !! "InterruptThrottleRate")
  ∧ ∃ model,
      get_module_model demo_world "e1000e" = Ok model
      ∧ name <$> params model = ["IntMode"; "copybreak"; "debug"]
      ∧ (∀ r, r ∈ params model → name r ≠ "gone")
      ∧ (∀ r, r ∈ params model → name r ≠ "InterruptThrottleRate").
Proof.
  split; [reflexivity|].
  split; [by vm_compute; eexists|].
  split; [by vm_compute; eexists|].
  destruct (C1_model_follows_live_params demo_world "e1000e"
              [demo_IntMode; demo_copybreak; demo_debug] eq_refl)
    as (model & Hm & _ & Hn & _ & _ & Hout & _).
  exists model. split_and!; [done|done| |].
  - apply Hout. simpl. intros H.
    repeat (apply elem_of_cons in H as [H|H]; [discriminate|]).
    by apply elem_of_nil in H.
  - apply Hout. simpl. intros H.
    repeat (apply elem_of_cons in H as [H|H]; [discriminate|]).
    by apply elem_of_nil in H.
Defined.

(** C5: the builder does raise.  In [vanishing_world] the listing gives a
    regular file whose [stat] raises; the call is outside every [try], so
    [read_sysfs_params] and with it [get_module_model] raise that error.
    What holds is [get_module_model_returns] and, for the three sources
    absent, [get_module_model_sources_absent]. *)
Theorem C5_build_model_raises_when_stat_fails :
  get_module_model vanishing_world "e1000e"
  = Raise (Exn "[Errno 2] No such file or directory")
  ∧ get_module_model bare_world "e1000e" = Ok {| module := "e1000e"; params := [] |}.
Proof. split; reflexivity. Qed.

(** ** The persisted-options reader *)

Example demo_get_etc_configs :
  map_to_list (get_etc_configs demo_world "e1000e")
  ≡ₚ [ ("InterruptThrottleRate",
        [ {| value := "3000"; file := "a.conf";
             line := "options e1000e InterruptThrottleRate=3000 debug=4" |} ]);
       ("debug",
        [ {| value := "4"; file := "a.conf";
             line := "options e1000e InterruptThrottleRate=3000 debug=4" |} ]) ].
Proof. vm_compute. reflexivity. Qed.

Lemma entries_of_app (key : string) (l1 l2 : list (string * Persisted)) :
  entries_of key (l1 ++ l2) = entries_of key l1 ++ entries_of key l2.
Proof. unfold entries_of. by rewrite filter_app, fmap_app. Qed.

Lemma default_present (l : list Persisted) : default [] (present l) = l.
Proof. by destruct l. Qed.

Lemma present_snoc (l : list Persisted) (e : Persisted) :
  present (l ++ [e]) = Some (l ++ [e]).
Proof. by destruct l. Qed.

Lemma holds_empty : holds ∅ [].
Proof. intros key. by rewrite lookup_empty. Qed.

Lemma entries_of_singleton (key k : string) (e : Persisted) :
  entries_of key [(k, e)] = if decide (k = key) then [e] else [].
Proof.
  unfold entries_of. rewrite filter_cons, filter_nil. simpl.
  by destruct (decide (k = key)).
Qed.

Lemma holds_setdefault_append (configs : gmap string (list Persisted))
    (l : list (string * Persisted)) (k : string) (e : Persisted) :
  holds configs l → holds (setdefault_append k e configs) (l ++ [(k, e)]).
Proof.
  intros H key. unfold setdefault_append.
  rewrite entries_of_app, entries_of_singleton.
  destruct (decide (k = key)) as [->|Hne].
  - by rewrite lookup_insert_eq, H, default_present, present_snoc.
  - rewrite lookup_insert_ne by done. by rewrite app_nil_r.
Qed.

Lemma holds_etc_parts (file_name stripped : string) (parts : list string) :
  ∀ configs l,
    holds configs l →
    holds (fold_left (etc_part file_name stripped) parts configs)
          (l ++ omap (spec_token_entry file_name stripped) parts).
Proof.
  induction parts as [|part parts IH]; intros configs l H; simpl.
  - by rewrite app_nil_r.
  - unfold etc_part at 2. unfold spec_token_entry at 1.
    destruct (Py.split_once "=" part) as [[k v]|]; simpl.
    + rewrite cons_middle, (assoc_L (++)). by apply IH, holds_setdefault_append.
    + by apply IH.
Qed.

Lemma holds_etc_line (module_name file_name raw : string)
    (configs : gmap string (list Persisted)) (l : list (string * Persisted)) :
  holds configs l →
  holds (etc_line module_name file_name configs raw)
        (l ++ spec_line_entries module_name file_name raw).
Proof.
  intros H. unfold etc_line, spec_line_entries.
  destruct (String.eqb (Py.strip raw) "" || Py.startswith "#" (Py.strip raw)).
  { by rewrite app_nil_r. }
  destruct (Py.split (Py.strip raw)) as [|t0 [|t1 [|t2 rest]]]; simpl;
    try by rewrite ?andb_false_r, ?app_nil_r.
  destruct (bool_decide (Some t0 = Some "options")) eqn:H0;
    destruct (bool_decide (Some t1 = Some module_name)) eqn:H1; simpl.
  - apply bool_decide_eq_true in H0 as [= ->].
    apply bool_decide_eq_true in H1 as [= ->].
    rewrite !bool_decide_eq_true_2 by done. simpl.
    by apply (holds_etc_parts file_name (Py.strip raw) (t2 :: rest)).
  - apply bool_decide_eq_false in H1.
    rewrite (bool_decide_eq_false_2 (t1 = module_name)) by congruence.
    by rewrite andb_false_r, app_nil_r.
  - apply bool_decide_eq_false in H0.
    rewrite (bool_decide_eq_false_2 (t0 = "options")) by congruence.
    by rewrite app_nil_r.
  - apply bool_decide_eq_false in H0.
    rewrite (bool_decide_eq_false_2 (t0 = "options")) by congruence.
    by rewrite app_nil_r.
Qed.

Lemma holds_etc_lines (module_name file_name : string) (lines : list string) :
  ∀ configs l,
    holds configs l →
    holds (fold_left (etc_line module_name file_name) lines configs)
          (l ++ (lines ≫= spec_line_entries module_name file_name)).
Proof.
  induction lines as [|raw lines IH]; intros configs l H; simpl.
  - by rewrite app_nil_r.
  - rewrite (assoc_L (++)). by apply IH, holds_etc_line.
Qed.

Lemma holds_etc_file (w : World) (module_name file_name : string)
    (configs : gmap string (list Persisted)) (l : list (string * Persisted)) :
  holds configs l →
  holds (etc_file w module_name configs file_name)
        (l ++ spec_file_entries w module_name file_name).
Proof.
  intros H. unfold etc_file, spec_file_entries.
  destruct (read_text w (path_join MODPROBE_D file_name)) as [text|e].
  - by apply holds_etc_lines.
  - by rewrite app_nil_r.
Qed.

Lemma holds_etc_files (w : World) (module_name : string) (files : list string) :
  ∀ configs l,
    holds configs l →
    holds (fold_left (etc_file w module_name) files configs)
          (l ++ (files ≫= spec_file_entries w module_name)).
Proof.
  induction files as [|f files IH]; intros configs l H; simpl.
  - by rewrite app_nil_r.
  - rewrite (assoc_L (++)). by apply IH, holds_etc_file.
Qed.

(** The first token of a line that starts with a character other than
    whitespace starts with that character, so a comment line never has
    [options] as its first token. *)
Lemma split_head (c : ascii) (s : string) :
  Py.isspace c = false → ∃ w ws, Py.split (String c s) = String c w :: ws.
Proof.
  intros Hc. simpl. rewrite Hc.
  destruct s as [|c' s']; [by eexists _, _|].
  destruct (Py.isspace c'); [by eexists _, _|].
  destruct (Py.split (String c' s')); by eexists _, _.
Qed.

Lemma lstrip_head (s : string) (c : ascii) (t : string) :
  Py.lstrip s = String c t → Py.isspace c = false.
Proof.
  induction s as [|c' s IH]; simpl; [done|].
  destruct (Py.isspace c') eqn:Hc'; [done|]. by intros [= <- _].
Qed.

Lemma rstrip_head (s : string) (c : ascii) (t : string) :
  Py.rstrip s = String c t → ∃ t', s = String c t'.
Proof.
  destruct s as [|c' s]; simpl; [done|].
  destruct (Py.rstrip s); [destruct (Py.isspace c')|];
    intros [= <- _]; by eexists.
Qed.

Lemma strip_head (s : string) (c : ascii) (t : string) :
  Py.strip s = String c t → Py.isspace c = false.
Proof.
  unfold Py.strip. intros (t' & Ht')%rstrip_head. by eapply lstrip_head.
Qed.

Lemma options_line_not_skipped (raw module_name : string) (rest : list string) :
  Py.split (Py.strip raw) = "options" :: module_name :: rest →
  String.eqb (Py.strip raw) "" || Py.startswith "#" (Py.strip raw) = false.
Proof.
  intros Hsplit.
  destruct (Py.strip raw) as [|c t] eqn:Hs; [done|].
  pose proof (strip_head _ _ _ Hs) as Hc.
  destruct (split_head c t Hc) as (w & ws & Hw). rewrite Hw in Hsplit.
  injection Hsplit as Hhead _ _. simpl.
  destruct (Ascii.eqb_spec c "#"%char) as [->|]; [discriminate Hhead|done].
Qed.

Lemma spec_line_entries_elem (module_name file_name raw k : string) (e : Persisted) :
  (k, e) ∈ spec_line_entries module_name file_name raw ↔
  ∃ rest token,
    Py.split (Py.strip raw) = "options" :: module_name :: rest
    ∧ token ∈ rest
    ∧ Py.split_once "=" token = Some (k, value e)
    ∧ file e = file_name
    ∧ line e = Py.strip raw.
Proof.
  unfold spec_line_entries. split.
  - destruct (String.eqb (Py.strip raw) "" || Py.startswith "#" (Py.strip raw));
      [by intros ?%elem_of_nil|].
    destruct (Py.split (Py.strip raw)) as [|t0 [|t1 [|t2 rest]]];
      try by intros ?%elem_of_nil.
    destruct (bool_decide (t0 = "options")) eqn:H0; [|by intros ?%elem_of_nil].
    destruct (bool_decide (t1 = module_name)) eqn:H1; [|by intros ?%elem_of_nil].
    apply bool_decide_eq_true in H0 as ->. apply bool_decide_eq_true in H1 as ->.
    cbn [andb]. intros (token & Htok & He)%list_elem_of_omap.
    exists (t2 :: rest), token. unfold spec_token_entry in He.
    destruct (Py.split_once "=" token) as [[k' v]|]; [|done].
    by injection He as <- <-.
  - intros (rest & token & Hsplit & Htok & Hkv & Hf & Hl).
    rewrite (options_line_not_skipped _ _ _ Hsplit), Hsplit.
    destruct rest as [|t2 rest]; [by apply elem_of_nil in Htok|].
    rewrite !bool_decide_eq_true_2 by done. cbn [andb].
    apply list_elem_of_omap. exists token. split; [done|].
    unfold spec_token_entry. rewrite Hkv. destruct e as [v f l]. simpl in *.
    by subst.
Qed.

(** C8: the mapping of [get_etc_configs] is the directives of the
    configuration files read as §4.4 words them ([spec_entries]): under
    each key the entries of the lines [options <module> key=value ...],
    files in listing order and lines and tokens in their order within a
    file, and a key with no entry is not in the mapping.  A line gives an
    entry exactly for each token after the second that has an [=], when
    the first token is [options] and the second the module name: value
    the text after the first [=], file the file name, line the stripped
    line.  A file that cannot be read gives nothing. *)
Theorem C8_persisted_overrides_follow_directives (w : World)
    (module_name key : string) :
  get_etc_configs w module_name !! key
  = present (entries_of key (spec_entries w module_name))
  ∧ spec_entries w module_name
    = (if exists_ w MODPROBE_D
       then glob w MODPROBE_D "*.conf" ≫= spec_file_entries w module_name
       else [])
  ∧ (∀ file_name,
       spec_file_entries w module_name file_name
       = match read_text w (path_join MODPROBE_D file_name) with
         | Ok text => Py.splitlines text ≫= spec_line_entries module_name file_name
         | Raise _ => []
         end)
  ∧ (∀ file_name raw k e,
       (k, e) ∈ spec_line_entries module_name file_name raw ↔
       ∃ rest token,
         Py.split (Py.strip raw) = "options" :: module_name :: rest
         ∧ token ∈ rest
         ∧ Py.split_once "=" token = Some (k, value e)
         ∧ file e = file_name
         ∧ line e = Py.strip raw).
Proof.
  split_and!.
  - unfold get_etc_configs, spec_entries.
    destruct (exists_ w MODPROBE_D); simpl.
    + apply (holds_etc_files w module_name (glob w MODPROBE_D "*.conf") ∅ []).
      apply holds_empty.
    + apply lookup_empty.
  - done.
  - done.
  - intros file_name raw k e. apply spec_line_entries_elem.
Qed.

(** ** The handlers *)

Ltac unfold_M :=
  unfold mbind, M_bind, mret, M_ret, gets, modify, lift_res, raise, try_except,
    notify, push_screen, highlight in *.

Lemma lv_append_all {A B} (f : A → B) (l : list A) (lv : ListView B) :
  fold_left (λ lv x, lv_append (f x) lv) l lv
  = {| children := children lv ++ (f <$> l); index := index lv |}.
Proof.
  revert lv. induction l as [|x l IH]; intros [ch i]; simpl.
  - by rewrite app_nil_r.
  - rewrite IH. simpl. by rewrite <- (assoc_L (++)).
Qed.

Lemma _load_details_Ok (module_name : string) (model : Model) (s : App) :
  get_module_model (world s) module_name = Ok model →
  _load_details module_name s = (Ok tt, loaded module_name model s).
Proof.
  intros H. unfold _load_details. unfold_M. simpl. rewrite H. simpl.
  unfold loaded. f_equal. unfold set_param_list at 1. simpl.
  by rewrite lv_append_all.
Qed.

Lemma _load_details_Raise (module_name : string) (e : exn) (s : App) :
  get_module_model (world s) module_name = Raise e →
  _load_details module_name s = (Raise e, s).
Proof. intros H. unfold _load_details. unfold_M. simpl. by rewrite H. Qed.

Lemma _load_details_frame (module_name : string) (s : App) :
  same_session s (_load_details module_name s).2
  ∧ filtered (_load_details module_name s).2 = filtered s.
Proof.
  destruct (get_module_model (world s) module_name) as [model|e] eqn:H.
  - by rewrite (_load_details_Ok _ _ _ H).
  - by rewrite (_load_details_Raise _ _ _ H).
Qed.

Lemma _render_list_frame (names : list string) (s : App) :
  same_session s (_render_list names s).2
  ∧ filtered (_render_list names s).2 = filtered s.
Proof.
  unfold _render_list. unfold_M. simpl.
  destruct names as [|first rest]; [done|].
  match goal with |- context [_load_details first ?s0] =>
    destruct (_load_details_frame first s0) as [(? & ? & ? & ? & ?) ?];
    destruct (_load_details first s0) as [[[]|e] s1] end; simpl in *;
    unfold same_session; by split_and!.
Qed.

(** ** The search box *)

Lemma rstrip_empty (s : string) : Py.rstrip s = "" ↔ all_isspace s = true.
Proof.
  induction s as [|c s IH]; simpl; [done|].
  rewrite andb_true_iff, <- IH.
  destruct (Py.rstrip s); destruct (Py.isspace c); intuition congruence.
Qed.

Lemma all_isspace_lstrip (s : string) : all_isspace (Py.lstrip s) = all_isspace s.
Proof.
  induction s as [|c s IH]; simpl; [done|].
  destruct (Py.isspace c) eqn:Hc; simpl; [done|]. by rewrite Hc.
Qed.

Lemma strip_empty (s : string) : Py.strip s = "" ↔ all_isspace s = true.
Proof. unfold Py.strip. by rewrite rstrip_empty, all_isspace_lstrip. Qed.

Lemma on_input_changed_filtered (scorer : string → string → Z)
    (event : InputChanged) (s : App) :
  input_id event = "search" →
  filtered (on_input_changed scorer event s).2
  = if String.eqb (Py.strip (ev_value event)) "" then all_modules s
    else ranked scorer (Py.strip (ev_value event)) (all_modules s).
Proof.
  intros Hid. unfold on_input_changed. rewrite Hid. simpl.
  destruct (String.eqb (Py.strip (ev_value event)) ""); unfold_M; simpl.
  - match goal with |- context [_render_list ?l ?s0] =>
      destruct (_render_list_frame l s0) as [_ Hf];
      destruct (_render_list l s0) as [[[]|e] s1] end; simpl in *; exact Hf.
  - match goal with |- context [_render_list ?l ?s0] =>
      destruct (_render_list_frame l s0) as [_ Hf];
      destruct (_render_list l s0) as [[[]|e] s1] end; simpl in *;
      unfold ranked; exact Hf.
Qed.

(** C9: for a query that is empty or all whitespace, the search handler
    sets the displayed list to the full module list, in its order. *)
Theorem C9_blank_query_is_identity (scorer : string → string → Z)
    (event : InputChanged) (s : App) :
  input_id event = "search" →
  all_isspace (ev_value event) = true →
  filtered (on_input_changed scorer event s).2 = all_modules s.
Proof.
  intros Hid Hq. rewrite on_input_changed_filtered by done.
  apply strip_empty in Hq. by rewrite Hq.
Qed.

Lemma C9_blank_query_is_identity_witness :
  filtered (on_input_changed demo_scorer
              {| input_id := "search"; ev_value := "  " |} demo_app).2
  = ["ahci"; "e1000"; "e1000e"; "ext4"; "snd_hda"].
Proof.
  apply (C9_blank_query_is_identity demo_scorer
           {| input_id := "search"; ev_value := "  " |} demo_app);
    reflexivity.
Defined.

(** *** The ranking of [process.extract] *)

Lemma score_ge_desc (a b : string * Z) : score_ge a b = true ↔ score_desc a b.
Proof. unfold score_ge, score_desc. rewrite Z.geb_leb. apply Z.leb_le. Qed.

Lemma sort_by_score_sorted (l : list (string * Z)) :
  StronglySorted score_desc (Py.sort_by score_ge l).
Proof.
  assert (StronglySorted (λ a b, score_ge a b = true) (Py.sort_by score_ge l)) as H.
  { apply sort_by_sorted.
    - intros a b. unfold score_ge. rewrite !Z.geb_leb, Z.leb_gt, Z.leb_le. lia.
    - intros a b c. rewrite !score_ge_desc. unfold score_desc. lia. }
  induction H as [|x l' Hl IH Hx]; constructor; [done|].
  eapply Forall_impl; [exact Hx|]. intros y. by rewrite score_ge_desc.
Qed.

Lemma extract_top (scorer : string → string → Z) (q : string) (M : list string)
    (limit : nat) :
  ∃ rest,
    extract scorer q M limit ++ rest ≡ₚ (λ c, (c, scorer q c)) <$> M
    ∧ StronglySorted score_desc (extract scorer q M limit ++ rest)
    ∧ length (extract scorer q M limit) = (limit `min` length M)%nat.
Proof.
  unfold extract.
  set (scored := (λ c, (c, scorer q c)) <$> M).
  exists (drop limit (Py.sort_by score_ge scored)).
  rewrite take_drop. split_and!.
  - apply sort_by_perm.
  - apply sort_by_score_sorted.
  - rewrite length_take, (Permutation_length (sort_by_perm score_ge scored)).
    unfold scored. by rewrite length_fmap.
Qed.

Lemma extract_elem (scorer : string → string → Z) (q : string) (M : list string)
    (limit : nat) (r : string * Z) :
  r ∈ extract scorer q M limit → r.1 ∈ M ∧ r.2 = scorer q r.1.
Proof.
  destruct (extract_top scorer q M limit) as (rest & Hp & _ & _).
  intros Hr.
  assert (r ∈ (λ c, (c, scorer q c)) <$> M) as Hin.
  { rewrite <- Hp. apply elem_of_app. by left. }
  apply list_elem_of_fmap in Hin as (c & -> & Hc). done.
Qed.

Lemma sorted_by_score_names (scorer : string → string → Z) (q : string)
    (l : list (string * Z)) :
  (∀ r, r ∈ l → r.2 = scorer q r.1) →
  StronglySorted score_desc l →
  StronglySorted (λ a b, scorer q b ≤ scorer q a) l.*1.
Proof.
  intros Hsc Hs. induction Hs as [|x l Hl IH Hx]; simpl; [constructor|].
  constructor.
  - apply IH. intros r Hr. apply Hsc. by right.
  - rewrite Forall_fmap. rewrite Forall_forall in Hx |- *.
    intros y Hy. simpl. rewrite <- (Hsc x), <- (Hsc y); [|by right|by left].
    by apply Hx.
Qed.

Lemma elem_of_take_elem {A} (x : A) (n : nat) (l : list A) : x ∈ take n l → x ∈ l.
Proof. intros (i & Hi & _)%elem_of_take. by eapply list_elem_of_lookup_2. Qed.

Lemma take_sorted {A} (R : relation A) (n : nat) (l : list A) :
  StronglySorted R l → StronglySorted R (take n l).
Proof.
  intros H. rewrite <- (take_drop n l) in H. by apply StronglySorted_app_1_l in H.
Qed.

Lemma threshold_by_length (q : string) :
  (if Py.len q >=? 2 then 65 else 50)
  = if decide (2 ≤ String.length q)%nat then 65 else 50.
Proof.
  unfold Py.len. rewrite Z.geb_leb.
  destruct (decide (2 ≤ String.length q)%nat) as [H|H].
  - by rewrite (proj2 (Z.leb_le _ _)) by lia.
  - by rewrite (proj2 (Z.leb_gt _ _)) by lia.
Qed.

Lemma search_outcome (scorer : string → string → Z) (event : InputChanged)
    (s : App) :
  input_id event = "search" →
  let q := Py.strip (ev_value event) in
  q ≠ "" →
  let results := extract scorer q (all_modules s) 200 in
  let threshold := if decide (2 ≤ String.length q)%nat then 65 else 50 in
  let kept := filter (λ r, threshold ≤ r.2) results in
  let out := filtered (on_input_changed scorer event s).2 in
  (kept ≠ [] → out = kept.*1) ∧ (kept = [] → out = (take 20 results).*1).
Proof.
  intros Hid q Hq results threshold kept out.
  assert (out = match kept.*1 with [] => (take 20 results).*1 | _ => kept.*1 end)
    as Hout.
  { unfold out. rewrite on_input_changed_filtered by done. fold q.
    apply String.eqb_neq in Hq. rewrite Hq. unfold ranked.
    rewrite threshold_by_length. done. }
  split.
  - intros Hne. rewrite Hout. destruct kept; [done|]. done.
  - intros He. rewrite Hout. by rewrite He.
Qed.

Example demo_search_e10 :
  filtered (on_input_changed demo_scorer
              {| input_id := "search"; ev_value := "e10" |} demo_app).2
  = ["e1000"; "e1000e"].
Proof. vm_compute. reflexivity. Qed.

(** C4: for a query whose stripped form [q] is not empty, the handler
    scores every module name with the metric, keeps the up to 200 best in
    descending order of score ([results]), and displays the names of
    those at or above the threshold, 65 when [q] has two characters or
    more and 50 otherwise, in that order; when none reaches the
    threshold it displays the first 20 names of [results].  The displayed
    names are module names in descending order of score, and there is one
    as soon as there is a module. *)
Theorem C4_query_ranks_and_thresholds (scorer : string → string → Z)
    (event : InputChanged) (s : App) :
  input_id event = "search" →
  let q := Py.strip (ev_value event) in
  q ≠ "" →
  let M := all_modules s in
  let results := extract scorer q M 200 in
  let threshold := if decide (2 ≤ String.length q)%nat then 65 else 50 in
  let kept := filter (λ r, threshold ≤ r.2) results in
  let out := filtered (on_input_changed scorer event s).2 in
  (∀ r, r ∈ results → r.1 ∈ M ∧ r.2 = scorer q r.1)
  ∧ (∃ rest, results ++ rest ≡ₚ (λ c, (c, scorer q c)) <$> M
             ∧ ∀ a b, a ∈ results → b ∈ rest → b.2 ≤ a.2)
  ∧ length results = (200 `min` length M)%nat
  ∧ StronglySorted score_desc results
  ∧ (kept ≠ [] → out = kept.*1)
  ∧ (kept = [] → out = (take 20 results).*1)
  ∧ StronglySorted (λ a b, scorer q b ≤ scorer q a) out
  ∧ (M ≠ [] → out ≠ [])
  ∧ (∀ n, n ∈ out → n ∈ M).
Proof.
  intros Hid q Hq M results threshold kept out.
  destruct (extract_top scorer q M 200) as (rest & Hperm & Hsorted & Hlen).
  fold results in Hperm, Hsorted, Hlen.
  assert (∀ r, r ∈ results → r.1 ∈ M ∧ r.2 = scorer q r.1) as Helem.
  { intros r. apply extract_elem. }
  assert (StronglySorted score_desc results) as Hres.
  { by apply StronglySorted_app_1_l in Hsorted. }
  destruct (search_outcome scorer event s Hid Hq) as [Hkept Hnone].
  fold q M results threshold kept out in Hkept, Hnone.
  split_and!; try done.
  - exists rest. split; [done|]. intros a b Ha Hb.
    by apply (StronglySorted_app_1_elem_of _ _ _ _ _ Hsorted).
  - destruct (decide (kept = [])) as [He|Hne].
    + rewrite (Hnone He). apply sorted_by_score_names.
      * intros r Hr%elem_of_take_elem. by apply Helem.
      * by apply take_sorted.
    + rewrite (Hkept Hne). apply sorted_by_score_names.
      * intros r [_ Hr]%list_elem_of_filter. by apply Helem.
      * by apply filter_sorted.
  - intros HM. destruct (decide (kept = [])) as [He|Hne].
    + rewrite (Hnone He). intros Hnil%fmap_nil_inv.
      apply (f_equal length) in Hnil. rewrite length_take, Hlen in Hnil.
      destruct M; [done|]. simpl in Hnil. lia.
    + rewrite (Hkept Hne). by intros ?%fmap_nil_inv.
  - intros n Hn. destruct (decide (kept = [])) as [He|Hne].
    + rewrite (Hnone He) in Hn.
      apply list_elem_of_fmap in Hn as (r & -> & Hr%elem_of_take_elem).
      by apply Helem.
    + rewrite (Hkept Hne) in Hn.
      apply list_elem_of_fmap in Hn as (r & -> & [_ Hr]%list_elem_of_filter).
      by apply Helem.
Qed.

Lemma C4_query_ranks_and_thresholds_witness :
  input_id demo_query_e10 = "search"
  ∧ Py.strip (ev_value demo_query_e10) ≠ ""
  ∧ filtered (on_input_changed demo_scorer demo_query_e10 demo_app).2
    = (filter (λ r, 65 ≤ r.2)
         (extract demo_scorer "e10" (all_modules demo_app) 200)).*1
  ∧ filtered (on_input_changed demo_scorer demo_query_e10 demo_app).2 ≠ [].
Proof.
  assert (Py.strip (ev_value demo_query_e10) ≠ "") as Hq by (vm_compute; discriminate).
  split; [reflexivity|]. split; [exact Hq|].
  destruct (C4_query_ranks_and_thresholds demo_scorer demo_query_e10 demo_app
              eq_refl Hq) as (_ & _ & _ & _ & Hkept & _ & _ & Hne & _).
  split.
  - apply Hkept. vm_compute. discriminate.
  - apply Hne. discriminate.
Defined.

(** C10: the query is stripped before use, and the threshold follows the
    length of the stripped query: when that length is 1 the names kept
    are those that score 50 or more, whatever the length of the text in
    the search box. *)
Theorem C10_threshold_on_stripped_query (scorer : string → string → Z)
    (event : InputChanged) (s : App) :
  input_id event = "search" →
  let q := Py.strip (ev_value event) in
  String.length q = 1%nat →
  let results := extract scorer q (all_modules s) 200 in
  let kept := filter (λ r, 50 ≤ r.2) results in
  let out := filtered (on_input_changed scorer event s).2 in
  (kept ≠ [] → out = kept.*1)
  ∧ (kept = [] → out = (take 20 results).*1).
Proof.
  intros Hid q Hlen results kept out.
  assert (q ≠ "") as Hq by (by destruct q).
  destruct (search_outcome scorer event s Hid Hq) as [Hkept Hnone].
  fold q in Hkept, Hnone. rewrite Hlen in Hkept, Hnone.
  rewrite decide_False in Hkept, Hnone by lia. done.
Qed.

Lemma C10_threshold_on_stripped_query_witness :
  input_id demo_query_a = "search"
  ∧ String.length (ev_value demo_query_a) = 3%nat
  ∧ String.length (Py.strip (ev_value demo_query_a)) = 1%nat
  ∧ filtered (on_input_changed demo_scorer demo_query_a demo_app).2
    = (filter (λ r, 50 ≤ r.2)
         (extract demo_scorer "a" (all_modules demo_app) 200)).*1
  ∧ (filter (λ r, 50 ≤ r.2)
       (extract demo_scorer "a" (all_modules demo_app) 200)).*1
    = ["ahci"; "snd_hda"]
  ∧ (filter (λ r, 65 ≤ r.2)
       (extract demo_scorer "a" (all_modules demo_app) 200)).*1
    = ["ahci"].
Proof.
  split; [reflexivity|]. split; [reflexivity|]. split; [reflexivity|].
  split; [|split; reflexivity].
  apply (C10_threshold_on_stripped_query demo_scorer demo_query_a demo_app
           eq_refl eq_refl).
  vm_compute. discriminate.
Defined.

(** ** The edit workflow *)

Lemma append_assoc (a b c : string) : (a +:+ b) +:+ c = a +:+ b +:+ c.
Proof.
  induction a as [|x a IH]; [done|].
  change (String x ((a +:+ b) +:+ c) = String x (a +:+ b +:+ c)). by rewrite IH.
Qed.

Lemma append_nil_r (a : string) : a +:+ "" = a.
Proof.
  induction a as [|x a IH]; [done|].
  change (String x (a +:+ "") = String x a). by rewrite IH.
Qed.

Lemma contains_middle (before needle after : string) :
  contains needle (before +:+ needle +:+ after).
Proof. by exists before, after. Qed.

Lemma contains_end (before needle : string) : contains needle (before +:+ needle).
Proof. exists before, "". by rewrite append_nil_r. Qed.

Lemma ok_updated_contains (n v : string) :
  contains n (STRINGS.ok_updated n v) ∧ contains v (STRINGS.ok_updated n v).
Proof.
  unfold STRINGS.ok_updated. split; [apply contains_middle|].
  rewrite <- !append_assoc. apply contains_end.
Qed.

Lemma on_button_pressed_top (os_write_text : World → string → string → World * option exn)
    (button_id input_value : string) (top : Screen) (rest : list Screen) (s : App) :
  screens s = top :: rest →
  on_button_pressed os_write_text button_id input_value s
  = check_edit os_write_text (callback_p top)
      (if String.eqb button_id "save" then Some input_value else None)
      (set_screens rest s).
Proof.
  intros Hs. unfold on_button_pressed, dismiss.
  destruct (String.eqb button_id "save"); unfold_M; simpl; by rewrite Hs.
Qed.

Lemma check_edit_write_error (os_write_text : World → string → string → World * option exn)
    (p : Param) (v : string) (w' : World) (e : exn) (s : App) :
  os_write_text (world s) (path p) v = (w', Some e) →
  check_edit os_write_text p (Some v) s
  = (Ok tt,
     set_notifications
       (notifications s ++ [{| message := STRINGS.err_write e; severity := "error" |}])
       (written w' (path p) v s)).
Proof.
  intros Hw. unfold check_edit, write_text. unfold_M. by rewrite Hw.
Qed.

Lemma check_edit_written (os_write_text : World → string → string → World * option exn)
    (p : Param) (v : string) (w' : World) (cm : Model) (s : App) :
  os_write_text (world s) (path p) v = (w', None) →
  current_model s = Some cm →
  let s1 := set_notifications
              (notifications s
               ++ [{| message := STRINGS.ok_updated (name p) v;
                      severity := "information" |}])
              (written w' (path p) v s) in
  check_edit os_write_text p (Some v) s
  = match get_module_model w' (module cm) with
    | Ok model' => (Ok tt, loaded (module cm) model' s1)
    | Raise e =>
        (Ok tt,
         set_notifications
           (notifications s1
            ++ [{| message := STRINGS.err_write e; severity := "error" |}]) s1)
    end.
Proof.
  intros Hw Hcm s1. unfold check_edit, write_text. unfold_M. rewrite Hw. simpl.
  rewrite Hcm.
  destruct (get_module_model w' (module cm)) as [model'|e] eqn:Hm.
  - match goal with |- context [_load_details ?m ?x] =>
      rewrite (_load_details_Ok m model' x Hm) end. done.
  - match goal with |- context [_load_details ?m ?x] =>
      rewrite (_load_details_Raise m e x Hm) end. done.
Qed.

(** What the callback of the edit prompt does when the builder returns.
    On cancel the state is unchanged.  When the write raises, the model,
    its rows and its title are unchanged and one error notification with
    the text of the exception is added.  When the write goes through and
    the live reader returns in the world after the write, a notification
    with the name of the parameter and the written value is added and the
    model of the displayed module is the one built from the three readers
    in that world.  [check_edit_rebuild_raises] is the other case. *)
Lemma check_edit_outcomes
    (os_write_text : World → string → string → World * option exn)
    (p : Param) (s : App) :
  check_edit os_write_text p None s = (Ok tt, s)
  ∧ (∀ v w' e,
       os_write_text (world s) (path p) v = (w', Some e) →
       ∃ s',
         check_edit os_write_text p (Some v) s = (Ok tt, s')
         ∧ current_model s' = current_model s
         ∧ param_list s' = param_list s
         ∧ mod_title s' = mod_title s
         ∧ notifications s'
           = notifications s
             ++ [{| message := STRINGS.err_write e; severity := "error" |}]
         ∧ contains (exn_text e) (STRINGS.err_write e))
  ∧ (∀ v w' cm ps,
       os_write_text (world s) (path p) v = (w', None) →
       current_model s = Some cm →
       read_sysfs_params w' (module cm) = Ok ps →
       ∃ s' model',
         check_edit os_write_text p (Some v) s = (Ok tt, s')
         ∧ world s' = w'
         ∧ model' = {| module := module cm;
                       params := merge_param (get_modinfo_details w' (module cm))
                                             (get_etc_configs w' (module cm)) <$> ps |}
         ∧ get_module_model w' (module cm) = Ok model'
         ∧ current_model s' = Some model'
         ∧ children (param_list s')
           = (λ q, {| param_data := Some q |}) <$> params model'
         ∧ notifications s'
           = notifications s
             ++ [{| message := STRINGS.ok_updated (name p) v;
                    severity := "information" |}]
         ∧ contains (name p) (STRINGS.ok_updated (name p) v)
         ∧ contains v (STRINGS.ok_updated (name p) v)).
Proof.
  split_and!.
  - done.
  - intros v w' e Hw. eexists. split; [by apply check_edit_write_error|].
    split_and!; try done. apply contains_end.
  - intros v w' cm ps Hw Hcm Hps.
    pose proof (get_module_model_Ok _ _ _ Hps) as Hm.
    eexists _, _. split.
    { rewrite (check_edit_written _ _ _ _ _ _ Hw Hcm), Hm. done. }
    split_and!; try done; apply ok_updated_contains.
Qed.

Lemma check_edit_outcomes_demo :
  demo_os_write (world demo_app) (path demo_debug_param) "8"
  = (demo_world_written, None)
  ∧ current_model demo_app = Some demo_model
  ∧ ∃ s' model',
      check_edit demo_os_write demo_debug_param (Some "8") demo_app = (Ok tt, s')
      ∧ get_module_model demo_world_written "e1000e" = Ok model'
      ∧ current_model s' = Some model'
      ∧ notifications s'
        = [{| message := "Updated: debug = 8"; severity := "information" |}].
Proof.
  split; [reflexivity|]. split; [reflexivity|].
  destruct (check_edit_outcomes demo_os_write demo_debug_param demo_app)
    as (_ & _ & H).
  destruct (H "8" demo_world_written demo_model
              [demo_IntMode; demo_copybreak;
               {| sp_name := "debug"; sp_current := "8"; sp_writable := true;
                  sp_path := "/sys/module/e1000e/parameters/debug" |}]
              eq_refl eq_refl eq_refl)
    as (s' & model' & Hs' & _ & _ & Hm & Hcm & _ & Hn & _).
  exists s', model'. split_and!; done.
Defined.

(** After a successful write whose rebuild raises, the confirmation is
    followed by an error notification and the model stays as it was. *)
Lemma check_edit_rebuild_raises
    (os_write_text : World → string → string → World * option exn)
    (p : Param) (v : string) (w' : World) (cm : Model) (e : exn) (s : App) :
  os_write_text (world s) (path p) v = (w', None) →
  current_model s = Some cm →
  get_module_model w' (module cm) = Raise e →
  ∃ s',
    check_edit os_write_text p (Some v) s = (Ok tt, s')
    ∧ current_model s' = current_model s
    ∧ param_list s' = param_list s
    ∧ notifications s'
      = notifications s
        ++ [{| message := STRINGS.ok_updated (name p) v; severity := "information" |};
            {| message := STRINGS.err_write e; severity := "error" |}].
Proof.
  intros Hw Hcm Hm. eexists. split.
  { rewrite (check_edit_written _ _ _ _ _ _ Hw Hcm), Hm. done. }
  split_and!; try done. simpl. by rewrite <- (assoc_L (++)).
Qed.

(** C2: the rebuild after a successful write is not unconditional.  In
    [demo_app], saving [8] for [debug] with a write that goes through
    while [IntMode] goes away: the confirmation is emitted, the builder
    raises on the [stat] of [IntMode], the handler of the write error
    catches it, so an error notification follows the confirmation and the
    model, its rows and its title stay those from before the write.  The
    cancel case and the failed write leave the model, as the claim says
    ([check_edit_outcomes]). *)
Theorem C2_rebuild_fails_when_builder_raises :
  (check_edit racing_os_write demo_debug_param (Some "8") demo_app).1 = Ok tt
  ∧ writes (check_edit racing_os_write demo_debug_param (Some "8") demo_app).2
    = [("/sys/module/e1000e/parameters/debug", "8")]
  ∧ get_module_model
      (world (check_edit racing_os_write demo_debug_param (Some "8") demo_app).2)
      "e1000e"
    = Raise (Exn "[Errno 2] No such file or directory")
  ∧ notifications (check_edit racing_os_write demo_debug_param (Some "8") demo_app).2
    = [ {| message := "Updated: debug = 8"; severity := "information" |};
        {| message := "Error: [Errno 2] No such file or directory";
           severity := "error" |} ]
  ∧ current_model (check_edit racing_os_write demo_debug_param (Some "8") demo_app).2
    = Some demo_model
  ∧ param_list (check_edit racing_os_write demo_debug_param (Some "8") demo_app).2
    = param_list demo_app
  ∧ mod_title (check_edit racing_os_write demo_debug_param (Some "8") demo_app).2
    = mod_title demo_app.
Proof.
  assert (get_module_model vanishing_world (module demo_model)
          = Raise (Exn "[Errno 2] No such file or directory")) as Hm
    by reflexivity.
  rewrite (check_edit_written racing_os_write demo_debug_param "8"
             vanishing_world demo_model demo_app eq_refl eq_refl), Hm.
  split_and!; reflexivity.
Qed.

(** *** What each handler does to the prompts and to the write log *)

Lemma action_edit_parameter_cases (s : App) :
  let s' := (action_edit_parameter s).2 in
  writes s' = writes s ∧ world s' = world s ∧ param_list s' = param_list s
  ∧ (screens s' = screens s
     ∨ ∃ i item p,
         index (param_list s) = Some i
         ∧ children (param_list s) !! i = Some item
         ∧ param_data item = Some p
         ∧ writable p = true
         ∧ screens s'
           = {| modal := {| param_name := name p; current_value := current p;
                            param_path := path p |};
                callback_p := p |} :: screens s).
Proof.
  unfold action_edit_parameter. unfold_M. simpl.
  destruct (index (param_list s)) as [i|] eqn:Hi; simpl; [|by auto].
  destruct (children (param_list s) !! i) as [item|] eqn:Hc; simpl; [|by auto].
  destruct (param_data item) as [p|] eqn:Hp; simpl; [|by auto].
  destruct (writable p) eqn:Hw; simpl; [|by auto].
  split_and!; [done..|]. right. by exists i, item, p.
Qed.

Lemma check_edit_cases
    (os_write_text : World → string → string → World * option exn)
    (p : Param) (r : option string) (s : App) :
  let s' := (check_edit os_write_text p r s).2 in
  screens s' = screens s
  ∧ match r with
    | None => writes s' = writes s
    | Some v => writes s' = writes s ++ [(path p, v)]
    end.
Proof.
  destruct r as [v|]; [|done].
  destruct (os_write_text (world s) (path p) v) as [w' [e|]] eqn:Hw.
  - by rewrite (check_edit_write_error _ _ _ _ _ _ Hw).
  - destruct (current_model s) as [cm|] eqn:Hcm.
    + rewrite (check_edit_written _ _ _ _ _ _ Hw Hcm).
      by destruct (get_module_model w' (module cm)).
    + unfold check_edit, write_text. unfold_M. rewrite Hw. simpl. by rewrite Hcm.
Qed.

Lemma on_input_changed_frame (scorer : string → string → Z)
    (event : InputChanged) (s : App) :
  same_session s (on_input_changed scorer event s).2.
Proof.
  unfold on_input_changed.
  destruct (String.eqb (input_id event) "search"); simpl; [|done].
  destruct (String.eqb (Py.strip (ev_value event)) ""); unfold_M; simpl;
    match goal with |- context [_render_list ?l ?s0] =>
      destruct (_render_list_frame l s0) as [Hf _];
      destruct (_render_list l s0) as [[[]|e] s1] end; exact Hf.
Qed.

Lemma dispatch_step
    (os_write_text : World → string → string → World * option exn)
    (scorer : string → string → Z) (ev : Event) (s : App) :
  prompts_writable s →
  let s' := (dispatch os_write_text scorer ev s).2 in
  prompts_writable s'
  ∧ (writes s' = writes s
     ∨ ∃ top rest v,
         screens s = top :: rest
         ∧ writable (callback_p top) = true
         ∧ writes s' = writes s ++ [(path (callback_p top), v)]).
Proof.
  intros Hinv. unfold prompts_writable in *.
  assert (∀ s0, Forall (λ sc, writable (callback_p sc) = true) (screens s0) →
            Forall (λ sc, writable (callback_p sc) = true)
              (screens (action_edit_parameter s0).2)
            ∧ writes (action_edit_parameter s0).2 = writes s0) as Hact.
  { intros s0 H0.
    destruct (action_edit_parameter_cases s0) as (Hw & _ & _ & [Hs|Hs]).
    - by rewrite Hs.
    - destruct Hs as (i & item & p & _ & _ & _ & Hp & ->).
      split; [by constructor|done]. }
  destruct ev as [|b v|e|e|i]; simpl.
  - destruct (Hact s Hinv) as [? ?]. auto.
  - destruct (screens s) as [|top rest] eqn:Hs.
    + unfold on_button_pressed, dismiss.
      destruct (String.eqb b "save"); unfold_M; simpl; rewrite Hs; simpl;
        rewrite Hs; auto.
    + rewrite (on_button_pressed_top _ _ _ _ _ _ Hs).
      inversion Hinv as [|? ? Htop Hrest]; subst.
      match goal with |- context [check_edit _ ?p ?r ?s0] =>
        destruct (check_edit_cases os_write_text p r s0) as [Hsc Hwr] end.
      simpl in Hsc, Hwr. rewrite Hsc. split; [done|].
      destruct (String.eqb b "save"); [|by left].
      right. by exists top, rest, v.
  - destruct (on_input_changed_frame scorer e s) as (_ & Hw & Hs & _).
    rewrite Hs. auto.
  - unfold on_list_view_selected.
    destruct (String.eqb (list_view_id e) "left").
    + destruct (item_data e) as [m|]; [|by auto].
      destruct (String.eqb m ""); [by auto|].
      destruct (_load_details_frame m s) as [(_ & Hw & Hs & _) _].
      rewrite Hs. auto.
    + destruct (String.eqb (list_view_id e) "param_list"); [|by auto].
      destruct (Hact s Hinv) as [? ?]. auto.
  - auto.
Qed.

Lemma run_events_prompts_writable
    (os_write_text : World → string → string → World * option exn)
    (scorer : string → string → Z) (evs : list Event) (s : App) :
  prompts_writable s →
  prompts_writable (run_events os_write_text scorer evs s).
Proof.
  revert s. induction evs as [|ev evs IH]; intros s Hinv; simpl; [done|].
  destruct (dispatch_step os_write_text scorer ev s Hinv) as [Hinv' _].
  destruct (dispatch os_write_text scorer ev s) as [[[]|e] s']; simpl in *; auto.
Qed.

(** *** A file that is never reported writable is never written *)

Lemma _load_details_rows (module_name : string) (s : App) :
  rows_from s (_load_details module_name s).2.
Proof.
  destruct (get_module_model (world s) module_name) as [model|e] eqn:H.
  - rewrite (_load_details_Ok _ _ _ H). right. by exists module_name, model.
  - rewrite (_load_details_Raise _ _ _ H). by left.
Qed.

Lemma _render_list_rows (names : list string) (s : App) :
  rows_from s (_render_list names s).2.
Proof.
  unfold _render_list. unfold_M. simpl.
  destruct names as [|first rest]; [by left|].
  match goal with |- context [_load_details first ?s0] =>
    pose proof (_load_details_rows first s0) as Hr;
    destruct (_load_details first s0) as [[[]|e] s1] end; exact Hr.
Qed.

Lemma on_input_changed_rows (scorer : string → string → Z)
    (event : InputChanged) (s : App) :
  rows_from s (on_input_changed scorer event s).2.
Proof.
  unfold on_input_changed.
  destruct (String.eqb (input_id event) "search"); simpl; [|by left].
  destruct (String.eqb (Py.strip (ev_value event)) ""); unfold_M; simpl;
    match goal with |- context [_render_list ?l ?s0] =>
      pose proof (_render_list_rows l s0) as Hr;
      destruct (_render_list l s0) as [[[]|e] s1] end; exact Hr.
Qed.

Lemma check_edit_world
    (os_write_text : World → string → string → World * option exn)
    (p : Param) (r : option string) (s : App) :
  let s' := (check_edit os_write_text p r s).2 in
  rows_from s s'
  ∧ world s' = match r with
               | None => world s
               | Some v => (os_write_text (world s) (path p) v).1
               end.
Proof.
  destruct r as [v|]; [|by split; [left|]].
  destruct (os_write_text (world s) (path p) v) as [w' [e|]] eqn:Hw.
  - rewrite (check_edit_write_error _ _ _ _ _ _ Hw). by split; [left|].
  - destruct (current_model s) as [cm|] eqn:Hcm.
    + rewrite (check_edit_written _ _ _ _ _ _ Hw Hcm).
      destruct (get_module_model w' (module cm)) as [model'|e] eqn:Hm.
      * split; [|done]. right. by exists (module cm), model'.
      * by split; [left|].
    + unfold check_edit, write_text. unfold_M. rewrite Hw. simpl. rewrite Hcm.
      by split; [left|].
Qed.

Section out_of_reach.
Context (os_write_text : World → string → string → World * option exn).
Context (scorer : string → string → Z).
Context (W : World → Prop) (π : string).
Hypothesis W_write : ∀ w p v, W w → W (os_write_text w p v).1.
Hypothesis W_not_writable :
  ∀ w m model p, W w → get_module_model w m = Ok model → p ∈ params model →
                 path p = π → writable p = false.

Lemma rows_from_out_of_reach (s s' : App) :
  rows_from s s' → W (world s') →
  (∀ item p, item ∈ children (param_list s) → param_data item = Some p →
             path p = π → writable p = false) →
  ∀ item p, item ∈ children (param_list s') → param_data item = Some p →
            path p = π → writable p = false.
Proof.
  intros [Hsame|(m & model & Hm & Hrows)] HW Hold item p Hin Hp Hpath.
  - rewrite Hsame in Hin. by eapply Hold.
  - rewrite Hrows in Hin. apply list_elem_of_fmap in Hin as (q & -> & Hq).
    simpl in Hp. injection Hp as ->. by eapply W_not_writable.
Qed.

Lemma dispatch_out_of_reach (ev : Event) (s : App) :
  out_of_reach W π s →
  out_of_reach W π (dispatch os_write_text scorer ev s).2.
Proof.
  intros (HW & Hrows & Hscr & Hwr).
  assert (out_of_reach W π (action_edit_parameter s).2) as Hact.
  { destruct (action_edit_parameter_cases s) as (Hw & Hwo & Hpl & Hs).
    unfold out_of_reach. rewrite Hw, Hwo, Hpl. split_and!; try done.
    destruct Hs as [->|(i & item & p & _ & Hi & Hp & Hwp & ->)]; [done|].
    intros sc [->|Hsc]%elem_of_cons; [|by apply Hscr]. simpl. intros Hpath.
    apply list_elem_of_lookup_2 in Hi.
    rewrite (Hrows item p Hi Hp Hpath) in Hwp. done. }
  destruct ev as [|b v|e|e|i]; simpl.
  - exact Hact.
  - destruct (screens s) as [|top rest] eqn:Hs.
    + unfold on_button_pressed, dismiss.
      destruct (String.eqb b "save"); unfold_M; simpl; rewrite Hs; simpl;
        unfold out_of_reach; rewrite ?Hs; by split_and!.
    + rewrite (on_button_pressed_top _ _ _ _ _ _ Hs).
      assert (path (callback_p top) ≠ π) as Htop.
      { apply Hscr. by left. }
      match goal with |- context [check_edit _ ?p ?r ?s0] =>
        destruct (check_edit_cases os_write_text p r s0) as [Hsc Hwri];
        destruct (check_edit_world os_write_text p r s0) as [Hro Hwo] end.
      simpl in Hsc, Hwri, Hro, Hwo.
      assert (W (world (check_edit os_write_text (callback_p top)
                          (if String.eqb b "save" then Some v else None)
                          (set_screens rest s)).2)) as HW'.
      { rewrite Hwo. destruct (String.eqb b "save"); [by apply W_write|done]. }
      unfold out_of_reach. split_and!.
      * done.
      * by eapply rows_from_out_of_reach.
      * rewrite Hsc. intros sc Hin. apply Hscr. by right.
      * destruct (String.eqb b "save"); rewrite Hwri; [|done].
        intros pv [Hpv| ->%list_elem_of_singleton]%elem_of_app; [by apply Hwr|done].
  - destruct (on_input_changed_frame scorer e s) as (Hwo & Hw & Hs & _).
    unfold out_of_reach. rewrite Hwo, Hw, Hs. split_and!; try done.
    eapply rows_from_out_of_reach; [apply on_input_changed_rows| |done].
    by rewrite Hwo.
  - unfold on_list_view_selected.
    destruct (String.eqb (list_view_id e) "left").
    + destruct (item_data e) as [m|]; [|done].
      destruct (String.eqb m ""); [done|].
      destruct (_load_details_frame m s) as [(Hwo & Hw & Hs & _) _].
      unfold out_of_reach. rewrite Hwo, Hw, Hs. split_and!; try done.
      eapply rows_from_out_of_reach; [apply _load_details_rows| |done].
      by rewrite Hwo.
    + destruct (String.eqb (list_view_id e) "param_list"); [exact Hact|done].
  - done.
Qed.

Lemma run_events_out_of_reach (evs : list Event) (s : App) :
  out_of_reach W π s →
  out_of_reach W π (run_events os_write_text scorer evs s).
Proof.
  revert s. induction evs as [|ev evs IH]; intros s Hinv; simpl; [done|].
  pose proof (dispatch_out_of_reach ev s Hinv) as Hinv'.
  destruct (dispatch os_write_text scorer ev s) as [[[]|e] s']; simpl in *; auto.
Qed.

End out_of_reach.

Lemma demo_modes_write (w : World) (q v : string) :
  demo_modes w → demo_modes (demo_os_write w q v).1.
Proof.
  intros H x. unfold demo_os_write.
  destruct (String.eqb q "/sys/module/e1000e/parameters/debug"); simpl; apply H.
Qed.

Lemma demo_modes_copybreak (w : World) (m : string) (model : Model) (q : Param) :
  demo_modes w → get_module_model w m = Ok model → q ∈ params model →
  path q = path demo_copybreak_param → writable q = false.
Proof.
  intros HW Hm Hq Hpath.
  destruct (read_sysfs_params w m) as [ps|e] eqn:Hps.
  - rewrite (get_module_model_Ok _ _ _ Hps) in Hm. injection Hm as <-.
    simpl in Hq. apply list_elem_of_fmap in Hq as (r & -> & Hr).
    destruct (read_sysfs_params_fields _ _ _ _ Hps Hr) as (mode & Hmode & _ & Hw & _).
    simpl in Hpath |- *. rewrite Hw. rewrite HW, Hpath in Hmode.
    by injection Hmode as <-.
  - by rewrite (get_module_model_Raise _ _ _ Hps) in Hm.
Qed.

Lemma demo_app_out_of_reach :
  out_of_reach demo_modes (path demo_copybreak_param) demo_app.
Proof.
  split_and!.
  - done.
  - intros item q Hin Hq Hpath. simpl in Hin.
    repeat (apply elem_of_cons in Hin as [->|Hin];
            [simpl in Hq; injection Hq as <-; first [done|discriminate Hpath]|]).
    by apply elem_of_nil in Hin.
  - intros sc Hsc. by apply elem_of_nil in Hsc.
  - intros pv Hpv. by apply elem_of_nil in Hpv.
Qed.

Example demo_edit_debug :
  let s := run_events demo_os_write demo_scorer
             [Highlight (Some 2%nat); EditAction; ButtonPressed "save" "8"] demo_app in
  writes s = [("/sys/module/e1000e/parameters/debug", "8")]
  ∧ screens s = []
  ∧ (current <$> default [] (params <$> current_model s)) = ["<Unreadable>"; "256"; "8"]
  ∧ message <$> notifications s = ["Updated: debug = 8"].
Proof. vm_compute. done. Qed.

(** C3: the edit action on a row whose record is not writable adds the
    warning that names the parameter and does nothing else: no prompt is
    pushed, [write_text] is not called and the world is the same; the row
    being selected with Enter or a click goes the same way.  So a file
    that no model reports writable, in any world the writes can lead to,
    is never written, whatever events follow. *)
Theorem C3_not_writable_is_rejected
    (os_write_text : World → string → string → World * option exn)
    (scorer : string → string → Z)
    (s : App) (i : nat) (item : ListItem) (p : Param) :
  index (param_list s) = Some i →
  children (param_list s) !! i = Some item →
  param_data item = Some p →
  writable p = false →
  action_edit_parameter s
  = (Ok tt,
     set_notifications
       (notifications s
        ++ [{| message := STRINGS.warn_not_writable (name p); severity := "warning" |}])
       s)
  ∧ on_list_view_selected {| list_view_id := "param_list"; item_data := None |} s
    = action_edit_parameter s
  ∧ contains (name p) (STRINGS.warn_not_writable (name p))
  ∧ screens (action_edit_parameter s).2 = screens s
  ∧ writes (action_edit_parameter s).2 = writes s
  ∧ world (action_edit_parameter s).2 = world s
  ∧ (∀ (W : World → Prop) (evs : list Event),
       (∀ w q v, W w → W (os_write_text w q v).1) →
       (∀ w m model q, W w → get_module_model w m = Ok model → q ∈ params model →
                       path q = path p → writable q = false) →
       out_of_reach W (path p) s →
       ∀ pv, pv ∈ writes (run_events os_write_text scorer evs s) → pv.1 ≠ path p).
Proof.
  intros Hi Hc Hp Hw.
  assert (action_edit_parameter s
          = (Ok tt,
             set_notifications
               (notifications s
                ++ [{| message := STRINGS.warn_not_writable (name p);
                       severity := "warning" |}]) s)) as Hact.
  { unfold action_edit_parameter. unfold_M. simpl. rewrite Hi. simpl.
    rewrite Hc. simpl. rewrite Hp. simpl. by rewrite Hw. }
  split_and!.
  - exact Hact.
  - reflexivity.
  - unfold STRINGS.warn_not_writable. apply contains_middle.
  - by rewrite Hact.
  - by rewrite Hact.
  - by rewrite Hact.
  - intros W evs HW1 HW2 Hsafe.
    by destruct (run_events_out_of_reach os_write_text scorer W (path p)
                   HW1 HW2 evs s Hsafe) as (_ & _ & _ & ?).
Qed.

Lemma C3_not_writable_is_rejected_witness :
  index (param_list demo_app) = Some 1%nat
  ∧ children (param_list demo_app) !! 1%nat
    = Some {| param_data := Some demo_copybreak_param |}
  ∧ writable demo_copybreak_param = false
  ∧ action_edit_parameter demo_app
    = (Ok tt,
       set_notifications
         [{| message := "Parameter copybreak is not writable at runtime";
             severity := "warning" |}] demo_app)
  ∧ ∀ evs pv, pv ∈ writes (run_events demo_os_write demo_scorer evs demo_app) →
              pv.1 ≠ path demo_copybreak_param.
Proof.
  split; [reflexivity|]. split; [reflexivity|]. split; [reflexivity|].
  destruct (C3_not_writable_is_rejected demo_os_write demo_scorer demo_app 1
              {| param_data := Some demo_copybreak_param |} demo_copybreak_param
              eq_refl eq_refl eq_refl eq_refl)
    as (Hact & _ & _ & _ & _ & _ & Hrun).
  split; [exact Hact|].
  intros evs. apply (Hrun demo_modes evs).
  - intros w q v. apply demo_modes_write.
  - intros w m model q. apply demo_modes_copybreak.
  - apply demo_app_out_of_reach.
Defined.

(** * Further properties of the program *)

(** ** Strings *)

Lemma rstrip_idem (s : string) : Py.rstrip (Py.rstrip s) = Py.rstrip s.
Proof.
  induction s as [|c s IH]; [done|]. simpl.
  destruct (Py.rstrip s) as [|c' r] eqn:Hr.
  - destruct (Py.isspace c) eqn:Hc; [done|]. simpl. by rewrite Hc.
  - change (Py.rstrip (String c (String c' r)) = String c (String c' r)).
    cbn [Py.rstrip]. cbn [Py.rstrip] in IH. by rewrite IH.
Qed.

Lemma lstrip_nonspace (c : ascii) (s : string) :
  Py.isspace c = false → Py.lstrip (String c s) = String c s.
Proof. intros Hc. simpl. by rewrite Hc. Qed.

Lemma strip_idem (s : string) : Py.strip (Py.strip s) = Py.strip s.
Proof.
  unfold Py.strip.
  destruct (Py.rstrip (Py.lstrip s)) as [|c t] eqn:Hs; [done|].
  pose proof (strip_head s c t Hs) as Hc.
  rewrite lstrip_nonspace by done. rewrite <- Hs. apply rstrip_idem.
Qed.

Lemma lstrip_spaces (ws s : string) :
  all_isspace ws = true → Py.lstrip (ws +:+ s) = Py.lstrip s.
Proof.
  induction ws as [|c ws IH]; [done|]. simpl.
  intros [Hc Hws]%andb_true_iff.
  change (Py.lstrip (String c (ws +:+ s)) = Py.lstrip s). simpl.
  rewrite Hc. by apply IH.
Qed.

Lemma rstrip_spaces (s ws : string) :
  all_isspace ws = true → Py.rstrip (s +:+ ws) = Py.rstrip s.
Proof.
  intros Hws. induction s as [|c s IH].
  - change (Py.rstrip ws = ""). by apply rstrip_empty.
  - change (Py.rstrip (String c (s +:+ ws)) = Py.rstrip (String c s)).
    simpl. by rewrite IH.
Qed.

Lemma lstrip_app_nonempty (s t : string) :
  Py.lstrip s ≠ "" → Py.lstrip (s +:+ t) = Py.lstrip s +:+ t.
Proof.
  induction s as [|c s IH]; [done|]. simpl.
  change (String c s +:+ t) with (String c (s +:+ t)). simpl.
  destruct (Py.isspace c); [apply IH|done].
Qed.

(** Whitespace around a text does not change its stripped form. *)
Lemma strip_padding (ws1 s ws2 : string) :
  all_isspace ws1 = true → all_isspace ws2 = true →
  Py.strip (ws1 +:+ s +:+ ws2) = Py.strip s.
Proof.
  intros H1 H2. unfold Py.strip. rewrite lstrip_spaces by done.
  destruct (Py.lstrip s) as [|c t] eqn:Hs.
  - assert (all_isspace s = true) as Hsp.
    { rewrite <- all_isspace_lstrip, Hs. done. }
    assert (all_isspace (s +:+ ws2) = true) as Hall.
    { clear Hs. induction s as [|x s IH]; [done|].
      simpl in Hsp. apply andb_true_iff in Hsp as [Hx Hs].
      change (Py.isspace x && all_isspace (s +:+ ws2) = true).
      rewrite Hx. by apply IH. }
    apply rstrip_empty. by rewrite all_isspace_lstrip.
  - rewrite lstrip_app_nonempty by (by rewrite Hs). rewrite Hs.
    by apply rstrip_spaces.
Qed.

Lemma split_once_Some (c : ascii) (s a b : string) :
  Py.split_once c s = Some (a, b) →
  s = a +:+ String c b ∧ Py.split_once c a = None.
Proof.
  revert a. induction s as [|x s IH]; intros a; simpl; [done|].
  destruct (Ascii.eqb_spec x c) as [->|Hne].
  - by intros [= <- <-].
  - destruct (Py.split_once c s) as [[a' b']|]; [|done].
    intros [= <- <-]. destruct (IH a' eq_refl) as [-> Hn]. split; [done|].
    simpl. apply Ascii.eqb_neq in Hne. by rewrite Hne, Hn.
Qed.

Lemma no_space_cons (c : ascii) (s : string) :
  no_space (String c s) = negb (Py.isspace c) && no_space s.
Proof. done. Qed.

(** The tokens of [split] are not empty and hold no whitespace. *)
Lemma split_tokens (s : string) :
  Forall (λ t, t ≠ "" ∧ no_space t = true) (Py.split s).
Proof.
  induction s as [|c s IH]; [constructor|]. simpl.
  destruct (Py.isspace c) eqn:Hc; [done|].
  destruct s as [|c' s']; [by repeat constructor; simpl; rewrite ?Hc|].
  destruct (Py.isspace c') eqn:Hc'.
  - constructor; [by simpl; rewrite Hc|done].
  - destruct (Py.split (String c' s')) as [|w ws]; [by repeat constructor; simpl; rewrite ?Hc|].
    inversion IH as [|? ? [Hw1 Hw2] Hws]; subst.
    constructor; [|done]. split; [done|]. rewrite no_space_cons, Hc. done.
Qed.

Lemma no_space_app (a b : string) :
  no_space (a +:+ b) = no_space a && no_space b.
Proof.
  induction a as [|c a IH]; [done|].
  change (no_space (String c (a +:+ b)) = no_space (String c a) && no_space b).
  simpl. by rewrite IH, andb_assoc.
Qed.

(** ** Sorting *)

Lemma sorted_unique (l1 l2 : list string) :
  l1 ≡ₚ l2 → Py.sorted l1 = Py.sorted l2.
Proof.
  intros Hp. apply (StronglySorted_unique String.le); try apply sorted_sorted.
  by rewrite !sorted_perm.
Qed.

(** ** The module directory reader *)



(** ** The live reader and the builder *)

Lemma read_params_loop_with_iterdir (ls : string → res (list string)) (w : World)
    (dir : string) (names : list string) :
  read_params_loop (with_iterdir ls w) dir names = read_params_loop w dir names.
Proof.
  induction names as [|n names IH]; [done|]. simpl. by rewrite IH.
Qed.

Lemma read_sysfs_params_permuted (w : World) (m : string) (entries entries' : list string) :
  iterdir w (param_dir_of m) = Ok entries →
  entries' ≡ₚ entries →
  read_sysfs_params
    (with_iterdir (λ d, if String.eqb d (param_dir_of m) then Ok entries'
                        else iterdir w d) w) m
  = read_sysfs_params w m.
Proof.
  intros Hit Hp. unfold read_sysfs_params. simpl.
  destruct (exists_ w (param_dir_of m)); simpl; [|done].
  unfold mbind, res_mbind. simpl. rewrite String.eqb_refl, Hit. simpl.
  rewrite read_params_loop_with_iterdir. f_equal. by apply sorted_unique.
Qed.

(** X2: the order in which the parameter directory lists its entries
    does not matter: with the same entries in another order the live
    reader gives the same records and the builder the same model. *)
Theorem X2_listing_order_is_irrelevant (w : World) (m : string)
    (entries entries' : list string) :
  iterdir w (param_dir_of m) = Ok entries →
  entries' ≡ₚ entries →
  read_sysfs_params
    (with_iterdir (λ d, if String.eqb d (param_dir_of m) then Ok entries'
                        else iterdir w d) w) m
  = read_sysfs_params w m
  ∧ get_module_model
      (with_iterdir (λ d, if String.eqb d (param_dir_of m) then Ok entries'
                          else iterdir w d) w) m
    = get_module_model w m.
Proof.
  intros Hit Hp.
  pose proof (read_sysfs_params_permuted w m entries entries' Hit Hp) as Heq.
  split; [done|]. unfold get_module_model. by rewrite Heq.
Qed.

Lemma X2_listing_order_is_irrelevant_witness :
  iterdir demo_world (param_dir_of "e1000e")
  = Ok ["debug"; "sub"; "copybreak"; "IntMode"]
  ∧ get_module_model
      (with_iterdir (λ d, if String.eqb d (param_dir_of "e1000e")
                          then Ok ["sub"; "debug"; "copybreak"; "IntMode"]
                          else iterdir demo_world d) demo_world) "e1000e"
    = get_module_model demo_world "e1000e".
Proof.
  split; [reflexivity|].
  apply (X2_listing_order_is_irrelevant demo_world "e1000e"
           ["debug"; "sub"; "copybreak"; "IntMode"]
           ["sub"; "debug"; "copybreak"; "IntMode"] eq_refl).
  apply perm_swap.
Defined.

(** X3: every record of the live reader is the record of a regular file
    of the parameter directory: its path is the directory joined with its
    name, its name is in the listing, and the names are distinct when
    those of the listing are; its value has no whitespace at either end
    (it is the stripped content of the file, or the sentinel). *)
Theorem X3_live_records_are_well_formed (w : World) (m : string)
    (ps : list SysfsParam) (r : SysfsParam) :
  read_sysfs_params w m = Ok ps →
  r ∈ ps →
  exists_ w (param_dir_of m) = true
  ∧ sp_path r = path_join (param_dir_of m) (sp_name r)
  ∧ is_file w (sp_path r) = true
  ∧ Py.strip (sp_current r) = sp_current r
  ∧ ∃ entries,
      iterdir w (param_dir_of m) = Ok entries
      ∧ sp_name r ∈ entries
      ∧ (NoDup entries → NoDup (sp_name <$> ps)).
Proof.
  intros Hps Hr.
  destruct (read_sysfs_params_fields _ _ _ _ Hps Hr) as (mode & _ & Hpath & _ & Hcur).
  pose proof (read_sysfs_params_names _ _ _ Hps) as Hnames.
  destruct (exists_ w (param_dir_of m)) eqn:Hex;
    [|by rewrite Hnames in Hr; apply elem_of_nil in Hr].
  destruct Hnames as (entries & Hit & Hnames).
  assert (sp_name r ∈ sp_name <$> ps) as Hin by (by apply list_elem_of_fmap_2).
  rewrite Hnames in Hin. apply list_elem_of_filter in Hin as [Hf Hin].
  rewrite sorted_perm in Hin.
  split_and!.
  - done.
  - done.
  - by rewrite Hpath.
  - rewrite Hcur. destruct (read_text w (sp_path r)); [apply strip_idem|done].
  - exists entries. split_and!; [done..|].
    intros Hnd. rewrite Hnames. apply NoDup_filter. by rewrite sorted_perm.
Qed.

Lemma X3_live_records_are_well_formed_witness :
  exists_ demo_world (param_dir_of "e1000e") = true
  ∧ sp_path demo_debug = path_join (param_dir_of "e1000e") (sp_name demo_debug)
  ∧ is_file demo_world (sp_path demo_debug) = true
  ∧ Py.strip (sp_current demo_debug) = sp_current demo_debug
  ∧ ∃ entries,
      iterdir demo_world (param_dir_of "e1000e") = Ok entries
      ∧ sp_name demo_debug ∈ entries
      ∧ (NoDup entries
         → NoDup (sp_name <$> [demo_IntMode; demo_copybreak; demo_debug])).
Proof.
  apply (X3_live_records_are_well_formed demo_world "e1000e"
           [demo_IntMode; demo_copybreak; demo_debug] demo_debug).
  - reflexivity.
  - apply elem_of_cons. right. apply elem_of_cons. right. apply elem_of_cons. by left.
Defined.

(** ** The documentation reader *)

Lemma modinfo_line_pair (out : gmap string string) (l : string) :
  modinfo_line out l
  = match modinfo_pair l with
    | Some (n, d) => <[n := d]> out
    | None => out
    end.
Proof.
  unfold modinfo_line, modinfo_pair.
  by destruct (Py.split_once ":" (Py.strip l)) as [[n d]|].
Qed.

Lemma descs_of_cons (key l : string) (lines : list string) :
  descs_of key (l :: lines)
  = match modinfo_pair l with
    | Some (n, d) => if decide (n = key) then d :: descs_of key lines
                     else descs_of key lines
    | None => descs_of key lines
    end.
Proof.
  unfold descs_of. simpl. destruct (modinfo_pair l) as [[n d]|]; [|done].
  rewrite filter_cons. simpl. by destruct (decide (n = key)).
Qed.

Lemma modinfo_lines_lookup (lines : list string) (out : gmap string string) (key : string) :
  fold_left modinfo_line lines out !! key
  = match last (descs_of key lines) with
    | Some d => Some d
    | None => out !! key
    end.
Proof.
  revert out. induction lines as [|l lines IH]; intros out; [done|].
  simpl. rewrite IH, descs_of_cons, modinfo_line_pair.
  destruct (modinfo_pair l) as [[n d]|]; [|done].
  destruct (decide (n = key)) as [->|Hne].
  - destruct (descs_of key lines) as [|d' ds] eqn:Hl; simpl.
    + by rewrite lookup_insert_eq.
    + by destruct (last (d' :: ds)) eqn:Hlast; [|by apply last_None in Hlast].
  - by rewrite lookup_insert_ne by done.
Qed.

(** X4: the documentation reader gives the empty mapping when the tool
    cannot be run or ends with a return code other than 0; otherwise a
    key has the description of the last line that names it, lines without
    a colon count for nothing, and keys and descriptions have no
    whitespace at either end. *)
Theorem X4_modinfo_last_line_wins (w : World) (module_name : string) :
  (∀ e, modinfo_of w module_name = Raise e →
        get_modinfo_details w module_name = ∅)
  ∧ (∀ rc stdout, modinfo_of w module_name = Ok (rc, stdout) → rc ≠ 0 →
                  get_modinfo_details w module_name = ∅)
  ∧ (∀ stdout,
       modinfo_of w module_name = Ok (0, stdout) →
       ∀ key, get_modinfo_details w module_name !! key
              = last (descs_of key (Py.splitlines stdout)))
  ∧ (∀ key d, get_modinfo_details w module_name !! key = Some d →
              Py.strip key = key ∧ Py.strip d = d).
Proof.
  unfold modinfo_of, get_modinfo_details.
  assert (∀ stdout key,
            fold_left modinfo_line (Py.splitlines stdout) ∅ !! key
            = last (descs_of key (Py.splitlines stdout))) as Hlook.
  { intros stdout key. rewrite modinfo_lines_lookup, lookup_empty.
    by destruct (last _). }
  split_and!.
  - by intros e ->.
  - intros rc stdout -> Hrc. by apply Z.eqb_neq in Hrc as ->.
  - intros stdout -> key. simpl. apply Hlook.
  - intros key d.
    destruct (run w ["modinfo"; "-p"; module_name]) as [[rc stdout]|e];
      [|by rewrite lookup_empty].
    destruct (negb (rc =? 0)); [by rewrite lookup_empty|].
    rewrite Hlook. intros Hlast%last_Some_elem_of.
    unfold descs_of in Hlast.
    apply list_elem_of_fmap in Hlast as ([n' d'] & -> & [Hk Hin]%list_elem_of_filter).
    simpl in Hk. subst n'.
    apply list_elem_of_omap in Hin as (l & _ & Hl). unfold modinfo_pair in Hl.
    destruct (Py.split_once ":" (Py.strip l)) as [[n0 d0]|]; [|done].
    injection Hl as <- <-. simpl. split; apply strip_idem.
Qed.

Lemma X4_modinfo_last_line_wins_witness :
  get_modinfo_details demo_world "e1000e" !! "debug"
  = last (descs_of "debug"
            (Py.splitlines
               ("debug:Debug level (0=none,...,16=all) (int)" +:+ LF
                +:+ "copybreak:Maximum size of packet that is copied (uint)" +:+ LF
                +:+ "gone:A parameter of an older version (int)" +:+ LF))).
Proof.
  destruct (X4_modinfo_last_line_wins demo_world "e1000e") as (_ & _ & H & _).
  apply (H _ eq_refl).
Defined.

(** ** The persisted-options reader *)

Lemma get_etc_configs_lookup (w : World) (module_name key : string) :
  get_etc_configs w module_name !! key
  = present (entries_of key (spec_entries w module_name)).
Proof.
  unfold get_etc_configs, spec_entries.
  destruct (exists_ w MODPROBE_D); simpl; [|apply lookup_empty].
  apply (holds_etc_files w module_name (glob w MODPROBE_D "*.conf") ∅ []).
  apply holds_empty.
Qed.

Lemma get_etc_configs_elem (w : World) (module_name key : string)
    (l : list Persisted) (e : Persisted) :
  get_etc_configs w module_name !! key = Some l → e ∈ l →
  (key, e) ∈ spec_entries w module_name.
Proof.
  rewrite get_etc_configs_lookup. intros Hl He.
  assert (l = entries_of key (spec_entries w module_name)) as ->.
  { destruct (entries_of key (spec_entries w module_name)); simpl in Hl; congruence. }
  unfold entries_of in He.
  apply list_elem_of_fmap in He as ([k e'] & -> & [Hk Hin]%list_elem_of_filter).
  simpl in Hk. by subst k.
Qed.

(** X5: every entry of the persisted mapping comes from a line of a
    readable [*.conf] file of the configuration directory: its line is the
    stripped line, whose tokens are [options], the module name and then
    others, one of which is the key, an [=] and the value; the key holds no
    [=], and neither key nor value holds whitespace. *)
Theorem X5_persisted_entries_come_from_lines (w : World) (module_name key : string)
    (l : list Persisted) (e : Persisted) :
  get_etc_configs w module_name !! key = Some l →
  e ∈ l →
  exists_ w MODPROBE_D = true
  ∧ file e ∈ glob w MODPROBE_D "*.conf"
  ∧ (∃ text raw,
       read_text w (path_join MODPROBE_D (file e)) = Ok text
       ∧ raw ∈ Py.splitlines text
       ∧ line e = Py.strip raw)
  ∧ (∃ rest,
       Py.split (line e) = "options" :: module_name :: rest
       ∧ key +:+ "=" +:+ value e ∈ rest)
  ∧ Py.split_once "=" key = None
  ∧ no_space key = true
  ∧ no_space (value e) = true.
Proof.
  intros Hl He. pose proof (get_etc_configs_elem _ _ _ _ _ Hl He) as Hin.
  unfold spec_entries in Hin.
  destruct (exists_ w MODPROBE_D); [|by apply elem_of_nil in Hin].
  apply list_elem_of_bind in Hin as (f & Hin & Hf).
  unfold spec_file_entries in Hin.
  destruct (read_text w (path_join MODPROBE_D f)) as [text|err] eqn:Hread;
    [|by apply elem_of_nil in Hin].
  apply list_elem_of_bind in Hin as (raw & Hin & Hraw).
  apply spec_line_entries_elem in Hin as (rest & token & Hsplit & Htok & Hkv & Hfile & Hline).
  apply split_once_Some in Hkv as [-> Hnone].
  assert (no_space (key +:+ String "=" (value e)) = true) as Hns.
  { pose proof (split_tokens (Py.strip raw)) as Hall. rewrite Hsplit in Hall.
    rewrite !Forall_cons in Hall. destruct Hall as (_ & _ & Hall).
    rewrite Forall_forall in Hall. by apply Hall. }
  rewrite no_space_app in Hns. apply andb_true_iff in Hns as [Hk Hv].
  rewrite no_space_cons in Hv. apply andb_true_iff in Hv as [_ Hv].
  subst f. split_and!; try done.
  - exists text, raw. by rewrite Hread.
  - exists rest. by rewrite Hline.
Qed.

Lemma X5_persisted_entries_come_from_lines_witness :
  get_etc_configs demo_world "e1000e" !! "debug"
  = Some [ {| value := "4"; file := "a.conf";
              line := "options e1000e InterruptThrottleRate=3000 debug=4" |} ]
  ∧ ∃ rest,
      Py.split "options e1000e InterruptThrottleRate=3000 debug=4"
      = "options" :: "e1000e" :: rest
      ∧ "debug=4" ∈ rest.
Proof.
  split; [by vm_compute|].
  destruct (X5_persisted_entries_come_from_lines demo_world "e1000e" "debug"
              [ {| value := "4"; file := "a.conf";
                   line := "options e1000e InterruptThrottleRate=3000 debug=4" |} ]
              {| value := "4"; file := "a.conf";
                 line := "options e1000e InterruptThrottleRate=3000 debug=4" |})
    as (_ & _ & _ & H & _).
  - by vm_compute.
  - apply elem_of_cons. by left.
  - exact H.
Defined.

(** X6: whitespace before and after a line changes what neither reader
    makes of it: a directive may be indented or followed by blanks. *)
Theorem X6_line_padding_is_ignored (ws1 raw ws2 : string) :
  all_isspace ws1 = true →
  all_isspace ws2 = true →
  (∀ module_name file_name configs,
     etc_line module_name file_name configs (ws1 +:+ raw +:+ ws2)
     = etc_line module_name file_name configs raw)
  ∧ (∀ out, modinfo_line out (ws1 +:+ raw +:+ ws2) = modinfo_line out raw).
Proof.
  intros H1 H2. split.
  - intros module_name file_name configs. unfold etc_line.
    by rewrite strip_padding.
  - intros out. unfold modinfo_line. by rewrite strip_padding.
Qed.

Lemma X6_line_padding_is_ignored_witness :
  etc_line "e1000e" "a.conf" ∅ ("  " +:+ "options e1000e debug=4" +:+ " ")
  = etc_line "e1000e" "a.conf" ∅ "options e1000e debug=4".
Proof.
  destruct (X6_line_padding_is_ignored "  " "options e1000e debug=4" " "
              eq_refl eq_refl) as [H _].
  apply H.
Defined.

(** ** The builder with sources missing *)

(** X7: when the documentation tool cannot be run or fails, every record
    of the model has the sentinel as description; when the configuration
    directory is missing or has no [*.conf] file, every record has an
    empty persisted list; the live fields are those of the live reader in
    both cases. *)
Theorem X7_missing_annotations_give_defaults (w : World) (module_name : string)
    (model : Model) :
  get_module_model w module_name = Ok model →
  ((∃ e, modinfo_of w module_name = Raise e)
   ∨ (∃ rc stdout, modinfo_of w module_name = Ok (rc, stdout) ∧ rc ≠ 0) →
   ∀ p, p ∈ params model → desc p = STRINGS.no_desc)
  ∧ (exists_ w MODPROBE_D = false ∨ glob w MODPROBE_D "*.conf" = [] →
     ∀ p, p ∈ params model → persistent p = [])
  ∧ (∃ ps, read_sysfs_params w module_name = Ok ps
           ∧ Forall2 (λ r p, name p = sp_name r ∧ current p = sp_current r
                             ∧ writable p = sp_writable r ∧ path p = sp_path r)
                     ps (params model)).
Proof.
  intros Hm.
  destruct (read_sysfs_params w module_name) as [ps|e] eqn:Hps;
    [|by rewrite (get_module_model_Raise _ _ _ Hps) in Hm].
  rewrite (get_module_model_Ok _ _ _ Hps) in Hm. injection Hm as <-. simpl.
  split_and!.
  - intros Hfail p (r & -> & _)%list_elem_of_fmap. simpl.
    assert (get_modinfo_details w module_name = ∅) as ->; [|by rewrite lookup_empty].
    unfold modinfo_of in Hfail. unfold get_modinfo_details.
    destruct Hfail as [[e ->]|(rc & stdout & -> & Hrc)]; [done|].
    by apply Z.eqb_neq in Hrc as ->.
  - intros Hnone p (r & -> & _)%list_elem_of_fmap. simpl.
    assert (get_etc_configs w module_name = ∅) as ->; [|by rewrite lookup_empty].
    unfold get_etc_configs. destruct Hnone as [->| ->]; [done|].
    by destruct (exists_ w MODPROBE_D).
  - exists ps. split; [done|]. apply Forall2_fmap_r, Forall_Forall2_diag.
    by apply Forall_forall.
Qed.

Lemma X7_missing_annotations_give_defaults_witness :
  ∃ model,
    get_module_model plain_world "e1000e" = Ok model
    ∧ name <$> params model = ["IntMode"; "copybreak"; "debug"]
    ∧ (∀ p, p ∈ params model → desc p = STRINGS.no_desc)
    ∧ (∀ p, p ∈ params model → persistent p = []).
Proof.
  destruct (get_module_model plain_world "e1000e") as [model|e] eqn:Hm;
    [|by vm_compute in Hm].
  exists model.
  destruct (X7_missing_annotations_give_defaults plain_world "e1000e" model Hm)
    as (Hd & Hp & _).
  split; [done|]. split_and!.
  - vm_compute in Hm. by injection Hm as <-.
  - apply Hd. left. by eexists.
  - apply Hp. by left.
Defined.

(** ** The handlers, case by case *)

Lemma _load_details_cases (module_name : string) (s : App) :
  (∃ e, get_module_model (world s) module_name = Raise e
        ∧ _load_details module_name s = (Raise e, s))
  ∨ (∃ model, get_module_model (world s) module_name = Ok model
              ∧ _load_details module_name s = (Ok tt, loaded module_name model s)).
Proof.
  destruct (get_module_model (world s) module_name) as [model|e] eqn:H.
  - right. exists model. split; [done|]. by apply _load_details_Ok.
  - left. exists e. split; [done|]. by apply _load_details_Raise.
Qed.

Lemma get_module_model_module (w : World) (module_name : string) (model : Model) :
  get_module_model w module_name = Ok model → module model = module_name.
Proof.
  intros Hm. destruct (read_sysfs_params w module_name) as [ps|e] eqn:Hps.
  - rewrite (get_module_model_Ok _ _ _ Hps) in Hm. by injection Hm as <-.
  - by rewrite (get_module_model_Raise _ _ _ Hps) in Hm.
Qed.

Lemma lv_append_names (names : list string) (lv : ListView string) :
  fold_left (λ lv n, lv_append n lv) names lv
  = {| children := children lv ++ names; index := index lv |}.
Proof.
  revert lv. induction names as [|n names IH]; intros [ch i]; simpl.
  - by rewrite app_nil_r.
  - rewrite IH. simpl. by rewrite <- (assoc_L (++)).
Qed.

Lemma _render_list_eq (names : list string) (s : App) :
  _render_list names s
  = match names with
    | [] => (Ok tt, shown [] s)
    | first :: _ => _load_details first (shown names s)
    end.
Proof.
  unfold _render_list. unfold_M. simpl. rewrite lv_append_names. simpl.
  by destruct names.
Qed.

Lemma on_input_changed_eq (scorer : string → string → Z) (event : InputChanged)
    (s : App) :
  on_input_changed scorer event s
  = if String.eqb (input_id event) "search"
    then
      let l := if String.eqb (Py.strip (ev_value event)) "" then all_modules s
               else ranked scorer (Py.strip (ev_value event)) (all_modules s) in
      _render_list l (set_filtered l s)
    else (Ok tt, s).
Proof.
  unfold on_input_changed.
  destruct (String.eqb (input_id event) "search"); [|done]. simpl.
  destruct (String.eqb (Py.strip (ev_value event)) ""); unfold_M; simpl.
  - by destruct (_render_list _ _) as [[[]|e] s1].
  - unfold ranked. by destruct (_render_list _ _) as [[[]|e] s1].
Qed.

Lemma action_edit_parameter_eq (s : App) :
  action_edit_parameter s
  = (Ok tt,
     match index (param_list s) with
     | None => notified STRINGS.warn_select_param "warning" s
     | Some i =>
         match children (param_list s) !! i with
         | None => notified (STRINGS.err_ui (Exn "list index out of range")) "error" s
         | Some item =>
             match param_data item with
             | None => s
             | Some p =>
                 if writable p then set_screens (prompt_on p :: screens s) s
                 else notified (STRINGS.warn_not_writable (name p)) "warning" s
             end
         end
     end).
Proof.
  unfold action_edit_parameter. unfold_M. simpl.
  destruct (index (param_list s)) as [i|]; simpl; [|done].
  destruct (children (param_list s) !! i) as [item|]; simpl; [|done].
  destruct (param_data item) as [p|]; simpl; [|done].
  by destruct (writable p).
Qed.

Lemma check_edit_no_model
    (os_write_text : World → string → string → World * option exn)
    (p : Param) (v : string) (w' : World) (s : App) :
  os_write_text (world s) (path p) v = (w', None) →
  current_model s = None →
  check_edit os_write_text p (Some v) s
  = (Ok tt,
     notified (STRINGS.err_write (Exn "'KModUI' object has no attribute 'current_model'"))
       "error"
       (notified (STRINGS.ok_updated (name p) v) "information"
          (written w' (path p) v s))).
Proof.
  intros Hw Hcm. unfold check_edit, write_text. unfold_M. rewrite Hw. simpl.
  by rewrite Hcm.
Qed.

Lemma check_edit_returns
    (os_write_text : World → string → string → World * option exn)
    (p : Param) (r : option string) (s : App) :
  (check_edit os_write_text p r s).1 = Ok tt.
Proof.
  destruct r as [v|]; [|done].
  destruct (os_write_text (world s) (path p) v) as [w' [e|]] eqn:Hw.
  - by rewrite (check_edit_write_error _ _ _ _ _ _ Hw).
  - destruct (current_model s) as [cm|] eqn:Hcm.
    + rewrite (check_edit_written _ _ _ _ _ _ Hw Hcm).
      by destruct (get_module_model w' (module cm)).
    + by rewrite (check_edit_no_model _ _ _ _ _ Hw Hcm).
Qed.

Lemma set_screens_same (s : App) : set_screens (screens s) s = s.
Proof. by destruct s. Qed.

Lemma set_screens_twice (l1 l2 : list Screen) (s : App) :
  set_screens l1 (set_screens l2 s) = set_screens l1 s.
Proof. done. Qed.

(** ** The edit action and the prompt *)

(** X8: the edit action never raises and touches nothing but the
    notifications and the stack of prompts.  With no row highlighted it
    warns; with a highlight past the rows it reports the error; on a row
    without record it does nothing; on a writable row it pushes a prompt
    filled with the name, the current value and the path of the record. *)
Theorem X8_edit_action_branches (s : App) :
  (action_edit_parameter s).1 = Ok tt
  ∧ world (action_edit_parameter s).2 = world s
  ∧ writes (action_edit_parameter s).2 = writes s
  ∧ current_model (action_edit_parameter s).2 = current_model s
  ∧ param_list (action_edit_parameter s).2 = param_list s
  ∧ filtered (action_edit_parameter s).2 = filtered s
  ∧ (index (param_list s) = None →
     (action_edit_parameter s).2 = notified STRINGS.warn_select_param "warning" s)
  ∧ (∀ i, index (param_list s) = Some i →
          (length (children (param_list s)) ≤ i)%nat →
          (action_edit_parameter s).2
          = notified (STRINGS.err_ui (Exn "list index out of range")) "error" s)
  ∧ (∀ i item, index (param_list s) = Some i →
               children (param_list s) !! i = Some item →
               param_data item = None →
               (action_edit_parameter s).2 = s)
  ∧ (∀ i item p, index (param_list s) = Some i →
                 children (param_list s) !! i = Some item →
                 param_data item = Some p →
                 writable p = true →
                 (action_edit_parameter s).2
                 = set_screens
                     ({| modal := {| param_name := name p; current_value := current p;
                                     param_path := path p |};
                         callback_p := p |} :: screens s) s).
Proof.
  rewrite action_edit_parameter_eq. simpl.
  split; [done|].
  assert (∀ X : Type, ∀ f : App → X,
            (∀ msg sev, f (notified msg sev s) = f s) →
            (∀ l, f (set_screens l s) = f s) →
            f match index (param_list s) with
              | None => notified STRINGS.warn_select_param "warning" s
              | Some i =>
                  match children (param_list s) !! i with
                  | None => notified (STRINGS.err_ui (Exn "list index out of range"))
                              "error" s
                  | Some item =>
                      match param_data item with
                      | None => s
                      | Some p =>
                          if writable p then set_screens (prompt_on p :: screens s) s
                          else notified (STRINGS.warn_not_writable (name p)) "warning" s
                      end
                  end
              end = f s) as Hframe.
  { intros X f Hn Hs.
    destruct (index (param_list s)) as [i|]; [|done].
    destruct (children (param_list s) !! i) as [item|]; [|done].
    destruct (param_data item) as [p|]; [|done].
    by destruct (writable p). }
  split_and!.
  - by apply (Hframe _ world).
  - by apply (Hframe _ writes).
  - by apply (Hframe _ current_model).
  - by apply (Hframe _ param_list).
  - by apply (Hframe _ filtered).
  - by intros ->.
  - intros i -> Hlen. by rewrite (lookup_ge_None_2 _ _ Hlen).
  - by intros i item -> -> ->.
  - by intros i item p -> -> -> ->.
Qed.

Lemma X8_edit_action_branches_witness :
  index (param_list demo_app_debug) = Some 2%nat
  ∧ screens (action_edit_parameter demo_app_debug).2
    = [ {| modal := {| param_name := "debug"; current_value := "16";
                       param_path := "/sys/module/e1000e/parameters/debug" |};
           callback_p := demo_debug_param |} ].
Proof.
  split; [reflexivity|].
  destruct (X8_edit_action_branches demo_app_debug)
    as (_ & _ & _ & _ & _ & _ & _ & _ & _ & H).
  by rewrite (H 2%nat {| param_data := Some demo_debug_param |} demo_debug_param
                eq_refl eq_refl eq_refl eq_refl).
Defined.

(** X9: the callback of the prompt never raises.  A save calls
    [write_text] exactly once, on the path of the record and with the
    value entered, whether the write raises or not and whether or not the
    value differs from the current one; a cancel calls it not at all.  The
    world after a save is the one the write leaves. *)
Theorem X9_one_write_per_save
    (os_write_text : World → string → string → World * option exn)
    (p : Param) (s : App) :
  (∀ r, (check_edit os_write_text p r s).1 = Ok tt
        ∧ screens (check_edit os_write_text p r s).2 = screens s
        ∧ all_modules (check_edit os_write_text p r s).2 = all_modules s
        ∧ filtered (check_edit os_write_text p r s).2 = filtered s)
  ∧ writes (check_edit os_write_text p None s).2 = writes s
  ∧ world (check_edit os_write_text p None s).2 = world s
  ∧ (∀ v, writes (check_edit os_write_text p (Some v) s).2
          = writes s ++ [(path p, v)]
          ∧ world (check_edit os_write_text p (Some v) s).2
            = (os_write_text (world s) (path p) v).1).
Proof.
  split_and!; try done.
  - intros r. split; [apply check_edit_returns|].
    destruct (check_edit_cases os_write_text p r s) as [Hs _].
    split; [done|].
    destruct r as [v|]; [|done].
    destruct (os_write_text (world s) (path p) v) as [w' [e|]] eqn:Hw.
    + by rewrite (check_edit_write_error _ _ _ _ _ _ Hw).
    + destruct (current_model s) as [cm|] eqn:Hcm.
      * rewrite (check_edit_written _ _ _ _ _ _ Hw Hcm).
        by destruct (get_module_model w' (module cm)).
      * by rewrite (check_edit_no_model _ _ _ _ _ Hw Hcm).
  - intros v. split.
    + by destruct (check_edit_cases os_write_text p (Some v) s) as [_ ?].
    + by destruct (check_edit_world os_write_text p (Some v) s) as [_ ?].
Qed.

(** X10: a button of the prompt other than [save] closes the prompt and
    changes nothing else; [save] closes it and runs the callback on the
    record the prompt was opened on; with no prompt open a button does
    nothing.  No button lets an exception out. *)
Theorem X10_buttons_close_the_prompt
    (os_write_text : World → string → string → World * option exn)
    (button_id input_value : string) (s : App) :
  (on_button_pressed os_write_text button_id input_value s).1 = Ok tt
  ∧ (screens s = [] →
     on_button_pressed os_write_text button_id input_value s = (Ok tt, s))
  ∧ (∀ top rest,
       screens s = top :: rest →
       screens (on_button_pressed os_write_text button_id input_value s).2 = rest
       ∧ (button_id ≠ "save" →
          on_button_pressed os_write_text button_id input_value s
          = (Ok tt, set_screens rest s))
       ∧ (button_id = "save" →
          on_button_pressed os_write_text button_id input_value s
          = check_edit os_write_text (callback_p top) (Some input_value)
              (set_screens rest s))).
Proof.
  assert (screens s = [] →
          on_button_pressed os_write_text button_id input_value s = (Ok tt, s)) as Hnil.
  { intros Hs. unfold on_button_pressed, dismiss.
    destruct (String.eqb button_id "save"); unfold_M; simpl; by rewrite Hs. }
  split_and!.
  - destruct (screens s) as [|top rest] eqn:Hs; [by rewrite Hnil|].
    rewrite (on_button_pressed_top _ _ _ _ _ _ Hs). apply check_edit_returns.
  - done.
  - intros top rest Hs. rewrite (on_button_pressed_top _ _ _ _ _ _ Hs).
    split_and!.
    + by destruct (check_edit_cases os_write_text (callback_p top)
                     (if String.eqb button_id "save" then Some input_value else None)
                     (set_screens rest s)) as [-> _].
    + intros Hb. by apply String.eqb_neq in Hb as ->.
    + intros ->. done.
Qed.

Lemma X10_buttons_close_the_prompt_witness :
  on_button_pressed demo_os_write "cancel" "8"
    (set_screens [prompt_on demo_debug_param] demo_app)
  = (Ok tt, set_screens [] (set_screens [prompt_on demo_debug_param] demo_app)).
Proof.
  destruct (X10_buttons_close_the_prompt demo_os_write "cancel" "8"
              (set_screens [prompt_on demo_debug_param] demo_app)) as (_ & _ & H).
  destruct (H (prompt_on demo_debug_param) [] eq_refl) as (_ & Hc & _).
  apply Hc. discriminate.
Defined.

(** X11: opening the prompt on a writable row and leaving it with a
    button other than [save] gives back the state from before. *)
Theorem X11_open_then_cancel_is_identity
    (os_write_text : World → string → string → World * option exn)
    (scorer : string → string → Z)
    (s : App) (i : nat) (item : ListItem) (p : Param) (button_id input_value : string) :
  index (param_list s) = Some i →
  children (param_list s) !! i = Some item →
  param_data item = Some p →
  writable p = true →
  button_id ≠ "save" →
  run_events os_write_text scorer
    [EditAction; ButtonPressed button_id input_value] s = s.
Proof.
  intros Hi Hc Hp Hw Hb. simpl.
  rewrite action_edit_parameter_eq, Hi, Hc, Hp, Hw.
  rewrite (on_button_pressed_top _ _ _ (prompt_on p) (screens s)) by done.
  apply String.eqb_neq in Hb. rewrite Hb. simpl.
  by destruct s.
Qed.

Lemma X11_open_then_cancel_is_identity_witness :
  run_events demo_os_write demo_scorer
    [EditAction; ButtonPressed "cancel" "8"] demo_app_debug = demo_app_debug.
Proof.
  apply (X11_open_then_cancel_is_identity demo_os_write demo_scorer demo_app_debug
           2%nat {| param_data := Some demo_debug_param |} demo_debug_param
           "cancel" "8"); try reflexivity.
  discriminate.
Defined.

(** X12: the prompt keeps the record it was opened on: when the
    highlight moves while the prompt is open, a save still writes to the
    path of that record. *)
Theorem X12_prompt_keeps_its_record
    (os_write_text : World → string → string → World * option exn)
    (scorer : string → string → Z)
    (s : App) (i : nat) (item : ListItem) (p : Param) (j : option nat) (v : string) :
  index (param_list s) = Some i →
  children (param_list s) !! i = Some item →
  param_data item = Some p →
  writable p = true →
  writes (run_events os_write_text scorer
            [EditAction; Highlight j; ButtonPressed "save" v] s)
  = writes s ++ [(path p, v)]
  ∧ screens (run_events os_write_text scorer
               [EditAction; Highlight j; ButtonPressed "save" v] s)
    = screens s
  ∧ world (run_events os_write_text scorer
             [EditAction; Highlight j; ButtonPressed "save" v] s)
    = (os_write_text (world s) (path p) v).1.
Proof.
  intros Hi Hc Hp Hw. simpl.
  rewrite action_edit_parameter_eq, Hi, Hc, Hp, Hw. unfold highlight. unfold_M.
  match goal with |- context [on_button_pressed _ _ _ ?s0] =>
    rewrite (on_button_pressed_top os_write_text "save" v (prompt_on p) (screens s) s0)
      by done;
    set (s2 := set_screens (screens s) s0) end.
  change (if String.eqb "save" "save" then Some v else None) with (Some v).
  change (callback_p (prompt_on p)) with p.
  pose proof (check_edit_returns os_write_text p (Some v) s2) as Hret.
  destruct (check_edit_cases os_write_text p (Some v) s2) as [Hsc Hwr].
  destruct (check_edit_world os_write_text p (Some v) s2) as [_ Hwo].
  destruct (check_edit os_write_text p (Some v) s2) as [[[]|e] s3]; [|done].
  simpl in *. by rewrite Hsc, Hwr, Hwo.
Qed.

Lemma X12_prompt_keeps_its_record_witness :
  writes (run_events demo_os_write demo_scorer
            [EditAction; Highlight (Some 0%nat); ButtonPressed "save" "8"]
            demo_app_debug)
  = [("/sys/module/e1000e/parameters/debug", "8")].
Proof.
  by destruct (X12_prompt_keeps_its_record demo_os_write demo_scorer demo_app_debug
                 2%nat {| param_data := Some demo_debug_param |} demo_debug_param
                 (Some 0%nat) "8" eq_refl eq_refl eq_refl eq_refl) as [-> _].
Defined.

(** ** What the screen shows *)

Lemma _load_details_steps (module_name : string) (s : App) :
  details_step s (_load_details module_name s).2
  ∧ left (_load_details module_name s).2 = left s
  ∧ filtered (_load_details module_name s).2 = filtered s
  ∧ all_modules (_load_details module_name s).2 = all_modules s.
Proof.
  destruct (_load_details_cases module_name s)
    as [(e & _ & ->)|(model & Hm & ->)]; simpl.
  - split_and!; try done. by left.
  - split_and!; try done. right. exists model.
    by rewrite (get_module_model_module _ _ _ Hm).
Qed.

Lemma _render_list_steps (names : list string) (s : App) :
  details_step s (_render_list names s).2
  ∧ children (left (_render_list names s).2) = names
  ∧ filtered (_render_list names s).2 = filtered s
  ∧ all_modules (_render_list names s).2 = all_modules s.
Proof.
  rewrite _render_list_eq. destruct names as [|first rest]; simpl.
  - split_and!; try done. by left.
  - destruct (_load_details_steps first (shown (first :: rest) s))
      as (Hd & Hl & Hf & Ha).
    rewrite Hl, Hf, Ha. by split_and!.
Qed.

Lemma check_edit_steps
    (os_write_text : World → string → string → World * option exn)
    (p : Param) (r : option string) (s : App) :
  details_step s (check_edit os_write_text p r s).2
  ∧ left (check_edit os_write_text p r s).2 = left s
  ∧ filtered (check_edit os_write_text p r s).2 = filtered s
  ∧ all_modules (check_edit os_write_text p r s).2 = all_modules s.
Proof.
  destruct r as [v|]; [|by split_and!; [left|..]].
  destruct (os_write_text (world s) (path p) v) as [w' [e|]] eqn:Hw.
  - rewrite (check_edit_write_error _ _ _ _ _ _ Hw). by split_and!; [left|..].
  - destruct (current_model s) as [cm|] eqn:Hcm.
    + rewrite (check_edit_written _ _ _ _ _ _ Hw Hcm).
      destruct (get_module_model w' (module cm)) as [model'|e] eqn:Hm; simpl.
      * split_and!; try done. right. exists model'.
        by rewrite (get_module_model_module _ _ _ Hm).
      * split_and!; try done. left. by rewrite Hcm.
    + rewrite (check_edit_no_model _ _ _ _ _ Hw Hcm). simpl.
      split_and!; try done. left. by rewrite Hcm.
Qed.

Lemma ranked_sublist (scorer : string → string → Z) (q : string) (M : list string) :
  ∃ l, ranked scorer q M `sublist_of` l ∧ l ≡ₚ M
       ∧ (length (ranked scorer q M) ≤ 200)%nat.
Proof.
  exists (Py.sort_by score_ge ((λ c, (c, scorer q c)) <$> M)).*1.
  assert ((Py.sort_by score_ge ((λ c, (c, scorer q c)) <$> M)).*1 ≡ₚ M) as Hperm.
  { rewrite sort_by_perm, <- list_fmap_compose. simpl. by rewrite list_fmap_id. }
  unfold ranked, extract.
  set (sorted := Py.sort_by score_ge ((λ c, (c, scorer q c)) <$> M)) in *.
  set (threshold := if Py.len q >=? 2 then 65 else 50).
  assert ((take 200 sorted).*1 `sublist_of` sorted.*1) as Htake.
  { apply fmap_sublist, sublist_take. }
  assert ((filter (λ r, threshold ≤ r.2) (take 200 sorted)).*1 `sublist_of` sorted.*1)
    as Hkept.
  { etrans; [|exact Htake]. apply fmap_sublist, sublist_filter. }
  assert ((take 20 (take 200 sorted)).*1 `sublist_of` sorted.*1) as Hfall.
  { etrans; [|exact Htake]. apply fmap_sublist, sublist_take. }
  assert (length (take 200 sorted).*1 ≤ 200)%nat as Hlen.
  { rewrite length_fmap, length_take. lia. }
  split_and!; [|done|].
  - by destruct ((filter (λ r, threshold ≤ r.2) (take 200 sorted)).*1).
  - destruct ((filter (λ r, threshold ≤ r.2) (take 200 sorted)).*1) eqn:Hk.
    + rewrite length_fmap, length_take. lia.
    + rewrite <- Hk. etrans; [|exact Hlen].
      apply sublist_length, fmap_sublist, sublist_filter.
Qed.

Lemma ranked_subseteq (scorer : string → string → Z) (q : string) (M : list string) :
  ranked scorer q M ⊆ M.
Proof.
  destruct (ranked_sublist scorer q M) as (l & Hsub & Hperm & _).
  intros n Hn. rewrite <- Hperm. by eapply elem_of_sublist.
Qed.

Lemma on_input_changed_steps (scorer : string → string → Z)
    (event : InputChanged) (s : App) :
  details_step s (on_input_changed scorer event s).2
  ∧ list_step s (on_input_changed scorer event s).2.
Proof.
  rewrite on_input_changed_eq.
  destruct (String.eqb (input_id event) "search");
    [|by split; [left|split; [|left]]].
  cbv zeta.
  match goal with |- context [_render_list ?l ?s0] =>
    destruct (_render_list_steps l s0) as (Hd & Hl & Hf & Ha);
    assert (l ⊆ all_modules s) as Hsub end.
  { destruct (String.eqb (Py.strip (ev_value event)) "");
      [done|apply ranked_subseteq]. }
  split.
  - destruct Hd as [(? & ? & ?)|Hd]; [by left|by right].
  - split; [by rewrite Ha|]. right. rewrite Hl, Hf. done.
Qed.

Lemma dispatch_steps
    (os_write_text : World → string → string → World * option exn)
    (scorer : string → string → Z) (ev : Event) (s : App) :
  details_step s (dispatch os_write_text scorer ev s).2
  ∧ list_step s (dispatch os_write_text scorer ev s).2.
Proof.
  assert (details_step s s ∧ list_step s s) as Hsame.
  { by split; [left|split; [|left]]. }
  assert (details_step s (action_edit_parameter s).2
          ∧ list_step s (action_edit_parameter s).2) as Hact.
  { rewrite action_edit_parameter_eq. simpl.
    destruct (index (param_list s)) as [i|]; [|exact Hsame].
    destruct (children (param_list s) !! i) as [item|]; [|exact Hsame].
    destruct (param_data item) as [p|]; [|exact Hsame].
    destruct (writable p); exact Hsame. }
  destruct ev as [|b v|e|e|i]; simpl.
  - exact Hact.
  - destruct (screens s) as [|top rest] eqn:Hs.
    + unfold on_button_pressed, dismiss.
      destruct (String.eqb b "save"); unfold_M; simpl; rewrite Hs; exact Hsame.
    + rewrite (on_button_pressed_top _ _ _ _ _ _ Hs).
      match goal with |- context [check_edit _ ?p ?r ?s0] =>
        destruct (check_edit_steps os_write_text p r s0) as (Hd & Hl & Hf & Ha) end.
      split; [exact Hd|]. split; [exact Ha|]. left. by rewrite Hl, Hf.
  - apply on_input_changed_steps.
  - unfold on_list_view_selected.
    destruct (String.eqb (list_view_id e) "left").
    + destruct (item_data e) as [m|]; [|exact Hsame].
      destruct (String.eqb m ""); [exact Hsame|].
      destruct (_load_details_steps m s) as (Hd & Hl & Hf & Ha).
      split; [exact Hd|]. split; [exact Ha|]. left. by rewrite Hl, Hf.
    + destruct (String.eqb (list_view_id e) "param_list"); [exact Hact|exact Hsame].
  - exact Hsame.
Qed.

Lemma details_step_shown (s s' : App) :
  details_step s s' → details_shown s → details_shown s'.
Proof.
  intros [(Hc & Hr & Ht)|(model & Hc & Hr & Ht)] Hinv m Hm.
  - rewrite Hr, Ht. apply Hinv. by rewrite <- Hc.
  - rewrite Hc in Hm. injection Hm as <-. done.
Qed.

Lemma list_step_shown (s s' : App) :
  list_step s s' → list_shown s → list_shown s'.
Proof.
  intros [Ha [[Hl Hf]|[Hl Hsub]]] [Hs Hin]; unfold list_shown; rewrite Ha.
  - by rewrite Hl, Hf.
  - done.
Qed.

(** X13: the module list on the left always shows the filtered list, the
    filtered list is always made of loaded modules, and no event changes
    the list of loaded modules. *)
Theorem X13_left_list_shows_the_filter
    (os_write_text : World → string → string → World * option exn)
    (scorer : string → string → Z) (evs : list Event) (s : App) :
  list_shown s →
  list_shown (run_events os_write_text scorer evs s)
  ∧ all_modules (run_events os_write_text scorer evs s) = all_modules s.
Proof.
  revert s. induction evs as [|ev evs IH]; intros s Hinv; simpl; [done|].
  destruct (dispatch_steps os_write_text scorer ev s) as [_ Hl].
  pose proof (list_step_shown _ _ Hl Hinv) as Hinv'.
  destruct Hl as [Ha _].
  destruct (dispatch os_write_text scorer ev s) as [[[]|e] s']; simpl in *.
  - destruct (IH s' Hinv') as [? ->]. done.
  - done.
Qed.

Lemma X13_left_list_shows_the_filter_witness :
  list_shown demo_app
  ∧ list_shown (run_events demo_os_write demo_scorer
                  [Changed demo_query_a; EditAction; Changed demo_query_e10] demo_app).
Proof.
  assert (list_shown demo_app) as H.
  { split; [reflexivity|]. intros n Hn. simpl in *.
    repeat (apply elem_of_cons in Hn as [->|Hn];
            [repeat first [by left|right]|]).
    by apply elem_of_nil in Hn. }
  split; [exact H|].
  by destruct (X13_left_list_shows_the_filter demo_os_write demo_scorer
                 [Changed demo_query_a; EditAction; Changed demo_query_e10]
                 demo_app H).
Defined.

(** X14: the rows on the right and the title are always those of the
    current model: every row carries a record of that model, so the record
    a prompt is opened on belongs to the model on display. *)
Theorem X14_rows_are_those_of_the_model
    (os_write_text : World → string → string → World * option exn)
    (scorer : string → string → Z) (evs : list Event) (s : App) :
  details_shown s →
  details_shown (run_events os_write_text scorer evs s)
  ∧ ∀ m item,
      current_model (run_events os_write_text scorer evs s) = Some m →
      item ∈ children (param_list (run_events os_write_text scorer evs s)) →
      ∃ p, param_data item = Some p ∧ p ∈ params m.
Proof.
  intros Hinv.
  assert (details_shown (run_events os_write_text scorer evs s)) as Hfin.
  { revert s Hinv. induction evs as [|ev evs IH]; intros s Hinv; simpl; [done|].
    destruct (dispatch_steps os_write_text scorer ev s) as [Hd _].
    pose proof (details_step_shown _ _ Hd Hinv) as Hinv'.
    destruct (dispatch os_write_text scorer ev s) as [[[]|e] s']; simpl in *; auto. }
  split; [done|]. intros m item Hm Hitem.
  destruct (Hfin m Hm) as [Hrows _]. rewrite Hrows in Hitem.
  apply list_elem_of_fmap in Hitem as (p & -> & Hp). by exists p.
Qed.

Lemma X14_rows_are_those_of_the_model_witness :
  details_shown demo_app
  ∧ details_shown (run_events demo_os_write demo_scorer
                     [Highlight (Some 2%nat); EditAction; ButtonPressed "save" "8"]
                     demo_app).
Proof.
  assert (details_shown demo_app) as H.
  { intros m Hm. injection Hm as <-. split; reflexivity. }
  split; [exact H|].
  by destruct (X14_rows_are_those_of_the_model demo_os_write demo_scorer
                 [Highlight (Some 2%nat); EditAction; ButtonPressed "save" "8"]
                 demo_app H).
Defined.

(** ** The search box, further *)

(** X15: a search with a query that is not blank shows at most 200
    names, and no name twice when the list of loaded modules has none
    twice. *)
Theorem X15_search_result_is_bounded (scorer : string → string → Z)
    (event : InputChanged) (s : App) :
  input_id event = "search" →
  Py.strip (ev_value event) ≠ "" →
  (length (filtered (on_input_changed scorer event s).2) ≤ 200)%nat
  ∧ (NoDup (all_modules s) → NoDup (filtered (on_input_changed scorer event s).2)).
Proof.
  intros Hid Hq. rewrite on_input_changed_filtered by done.
  apply String.eqb_neq in Hq. rewrite Hq.
  destruct (ranked_sublist scorer (Py.strip (ev_value event)) (all_modules s))
    as (l & Hsub & Hperm & Hlen).
  split; [done|]. intros Hnd. eapply sublist_NoDup; [|exact Hsub]. by rewrite Hperm.
Qed.

Lemma X15_search_result_is_bounded_witness :
  (length (filtered (on_input_changed demo_scorer demo_query_e10 demo_app).2) ≤ 200)%nat
  ∧ NoDup (filtered (on_input_changed demo_scorer demo_query_e10 demo_app).2).
Proof.
  destruct (X15_search_result_is_bounded demo_scorer demo_query_e10 demo_app eq_refl)
    as [Hl Hn].
  - vm_compute. discriminate.
  - split; [exact Hl|]. apply Hn. simpl.
    repeat (apply NoDup_cons; split;
            [intros H; repeat (apply elem_of_cons in H as [H|H]; [discriminate|]);
             by apply elem_of_nil in H|]).
    apply NoDup_nil_2.
Defined.

(** X16: after a search the details are those of the first name of the
    new list.  When building that model raises, the exception leaves the
    handler with the list already replaced and the details as they were;
    with an empty list nothing is loaded. *)
Theorem X16_search_loads_the_first_module (scorer : string → string → Z)
    (event : InputChanged) (s : App) :
  input_id event = "search" →
  (filtered (on_input_changed scorer event s).2 = [] →
   on_input_changed scorer event s = (Ok tt, shown [] (set_filtered [] s)))
  ∧ (∀ first rest,
       filtered (on_input_changed scorer event s).2 = first :: rest →
       (∀ e, get_module_model (world s) first = Raise e →
             on_input_changed scorer event s
             = (Raise e, shown (first :: rest) (set_filtered (first :: rest) s)))
       ∧ (∀ model, get_module_model (world s) first = Ok model →
                   on_input_changed scorer event s
                   = (Ok tt,
                      loaded first model
                        (shown (first :: rest) (set_filtered (first :: rest) s))))).
Proof.
  intros Hid. rewrite on_input_changed_filtered by done.
  rewrite on_input_changed_eq, Hid. simpl.
  set (l := if String.eqb (Py.strip (ev_value event)) "" then all_modules s
            else ranked scorer (Py.strip (ev_value event)) (all_modules s)).
  rewrite _render_list_eq. split.
  - by intros ->.
  - intros first rest ->. split.
    + intros e He. by apply _load_details_Raise.
    + intros model Hm. by apply _load_details_Ok.
Qed.

Lemma X16_search_loads_the_first_module_witness :
  filtered (on_input_changed demo_scorer demo_query_e demo_app_vanishing).2 = ["e1000e"]
  ∧ on_input_changed demo_scorer demo_query_e demo_app_vanishing
    = (Raise (Exn "[Errno 2] No such file or directory"),
       shown ["e1000e"] (set_filtered ["e1000e"] demo_app_vanishing)).
Proof.
  split; [by vm_compute|].
  destruct (X16_search_loads_the_first_module demo_scorer demo_query_e
              demo_app_vanishing eq_refl) as [_ H].
  destruct (H "e1000e" []) as [Hr _]; [by vm_compute|].
  apply Hr. reflexivity.
Defined.

(** ** Start and selection *)

Lemma on_mount_eq (is_dir : string → bool) (s : App) :
  on_mount is_dir s
  = match get_loaded_modules is_dir (world s) with
    | Raise e => (Raise e, s)
    | Ok mods => _render_list mods (set_filtered mods (set_all_modules mods s))
    end.
Proof.
  unfold on_mount. unfold_M. simpl.
  destruct (get_loaded_modules is_dir (world s)) as [mods|e]; [|done]. simpl.
  by destruct (_render_list _ _) as [[[]|e] s'].
Qed.

(** X17: [on_mount] raises what listing the registry raises and then
    leaves the state alone; otherwise the loaded modules become both the
    full list and the filtered list, the left list shows them, and the
    details are those of the first one when its model can be built. *)
Theorem X17_mount_shows_all_modules (is_dir : string → bool) (s : App) :
  (∀ e, get_loaded_modules is_dir (world s) = Raise e →
        on_mount is_dir s = (Raise e, s))
  ∧ (∀ mods,
       get_loaded_modules is_dir (world s) = Ok mods →
       all_modules (on_mount is_dir s).2 = mods
       ∧ filtered (on_mount is_dir s).2 = mods
       ∧ children (left (on_mount is_dir s).2) = mods
       ∧ world (on_mount is_dir s).2 = world s
       ∧ (mods = [] → (on_mount is_dir s).1 = Ok tt
                      ∧ current_model (on_mount is_dir s).2 = current_model s)
       ∧ (∀ first rest model,
            mods = first :: rest →
            get_module_model (world s) first = Ok model →
            (on_mount is_dir s).1 = Ok tt
            ∧ current_model (on_mount is_dir s).2 = Some model
            ∧ children (param_list (on_mount is_dir s).2) = rows model)
       ∧ (∀ first rest e,
            mods = first :: rest →
            get_module_model (world s) first = Raise e →
            (on_mount is_dir s).1 = Raise e)).
Proof.
  rewrite on_mount_eq. split.
  - by intros e ->.
  - intros mods ->.
    set (s0 := set_filtered mods (set_all_modules mods s)).
    destruct (_render_list_steps mods s0) as (_ & Hl & Hf & Ha).
    assert (world (_render_list mods s0).2 = world s) as Hw.
    { by destruct (_render_list_frame mods s0) as [(? & _) _]. }
    split_and!; try done.
    + intros ->. by rewrite _render_list_eq.
    + intros first rest model -> Hm. rewrite _render_list_eq.
      by rewrite (_load_details_Ok first model (shown (first :: rest) s0) Hm).
    + intros first rest e -> Hm. rewrite _render_list_eq.
      by rewrite (_load_details_Raise first e (shown (first :: rest) s0) Hm).
Qed.

(** X18: selecting a module on the left shows the details of that
    module and leaves the module list and the search result; when its
    model cannot be built the exception leaves the handler and nothing
    has changed.  A selection without module name, or on a list that is
    neither of the two, does nothing. *)
Theorem X18_selection_loads_that_module (event : Selected) (s : App) :
  (list_view_id event = "left" →
   ∀ module_name,
     item_data event = Some module_name → module_name ≠ "" →
     (∀ model, get_module_model (world s) module_name = Ok model →
               on_list_view_selected event s = (Ok tt, loaded module_name model s))
     ∧ (∀ e, get_module_model (world s) module_name = Raise e →
             on_list_view_selected event s = (Raise e, s)))
  ∧ (list_view_id event = "left" →
     item_data event = None ∨ item_data event = Some "" →
     on_list_view_selected event s = (Ok tt, s))
  ∧ (list_view_id event ≠ "left" → list_view_id event ≠ "param_list" →
     on_list_view_selected event s = (Ok tt, s)).
Proof.
  unfold on_list_view_selected. split_and!.
  - intros -> m -> Hm. simpl. apply String.eqb_neq in Hm. rewrite Hm. split.
    + intros model. apply _load_details_Ok.
    + intros e. apply _load_details_Raise.
  - intros -> [-> | ->]; done.
  - intros Hl%String.eqb_neq Hp%String.eqb_neq. by rewrite Hl, Hp.
Qed.

Lemma X18_selection_loads_that_module_witness :
  on_list_view_selected {| list_view_id := "left"; item_data := Some "e1000e" |} demo_app
  = (Ok tt, loaded "e1000e" demo_model demo_app).
Proof.
  destruct (X18_selection_loads_that_module
              {| list_view_id := "left"; item_data := Some "e1000e" |} demo_app)
    as [H _].
  destruct (H eq_refl "e1000e" eq_refl) as [Hok _]; [discriminate|].
  apply Hok. by vm_compute.
Defined.

(** X19: only a save on an open prompt writes: every other event, and
    every event while no prompt is open, leaves the world and the log of
    writes as they are. *)
Theorem X19_only_a_save_writes
    (os_write_text : World → string → string → World * option exn)
    (scorer : string → string → Z) (ev : Event) (s : App) :
  (∀ b v, ev = ButtonPressed b v → b ≠ "save" ∨ screens s = []) →
  world (dispatch os_write_text scorer ev s).2 = world s
  ∧ writes (dispatch os_write_text scorer ev s).2 = writes s.
Proof.
  intros Hev.
  assert (world (action_edit_parameter s).2 = world s
          ∧ writes (action_edit_parameter s).2 = writes s) as Hact.
  { by destruct (action_edit_parameter_cases s) as (? & ? & _). }
  destruct ev as [|b v|e|e|i]; simpl.
  - exact Hact.
  - destruct (screens s) as [|top rest] eqn:Hs.
    + unfold on_button_pressed, dismiss.
      destruct (String.eqb b "save"); unfold_M; simpl; by rewrite Hs.
    + rewrite (on_button_pressed_top _ _ _ _ _ _ Hs).
      destruct (Hev b v eq_refl) as [Hb|Hb]; [|done].
      apply String.eqb_neq in Hb. by rewrite Hb.
  - by destruct (on_input_changed_frame scorer e s) as (? & ? & _).
  - unfold on_list_view_selected.
    destruct (String.eqb (list_view_id e) "left").
    + destruct (item_data e) as [m|]; [|done].
      destruct (String.eqb m ""); [done|].
      by destruct (_load_details_frame m s) as [(? & ? & _) _].
    + by destruct (String.eqb (list_view_id e) "param_list").
  - done.
Qed.

Lemma X19_only_a_save_writes_witness :
  world (dispatch demo_os_write demo_scorer (ButtonPressed "save" "8") demo_app).2
  = world demo_app
  ∧ writes (dispatch demo_os_write demo_scorer (ButtonPressed "save" "8") demo_app).2
    = writes demo_app.
Proof.
  apply (X19_only_a_save_writes demo_os_write demo_scorer
           (ButtonPressed "save" "8") demo_app).
  intros b v _. by right.
Defined.

Lemma X17_mount_shows_all_modules_witness :
  get_loaded_modules demo_is_dir (world (set_world demo_registry demo_app))
  = Ok ["e1000e"; "ext4"]
  ∧ all_modules (on_mount demo_is_dir (set_world demo_registry demo_app)).2
    = ["e1000e"; "ext4"]
  ∧ children (left (on_mount demo_is_dir (set_world demo_registry demo_app)).2)
    = ["e1000e"; "ext4"].
Proof.
  split; [reflexivity|].
  destruct (X17_mount_shows_all_modules demo_is_dir (set_world demo_registry demo_app))
    as [_ H].
  destruct (H ["e1000e"; "ext4"] eq_refl) as (Ha & _ & Hl & _).
  by split.
Defined.

(** ** The text of a model *)

Lemma rstrip_keep (a : string) (c : ascii) (b : string) :
  Py.isspace c = false →
  Py.rstrip (a +:+ String c b) = a +:+ String c (Py.rstrip b).
Proof.
  intros Hc. induction a as [|x a IH].
  - change (Py.rstrip (String c b) = String c (Py.rstrip b)). simpl.
    destruct (Py.rstrip b); [by rewrite Hc|done].
  - change (Py.rstrip (String x (a +:+ String c b))
            = String x (a +:+ String c (Py.rstrip b))).
    simpl. rewrite IH. by destruct a.
Qed.

Lemma contains_refl (t : string) : contains t t.
Proof. exists "", "". by rewrite append_nil_r. Qed.

Lemma contains_app_l (n a b : string) : contains n a → contains n (a +:+ b).
Proof.
  intros (x & y & ->). exists x, (y +:+ b). by rewrite !append_assoc.
Qed.

Lemma contains_app_r (n a b : string) : contains n b → contains n (a +:+ b).
Proof.
  intros (x & y & ->). exists (a +:+ x), y. by rewrite !append_assoc.
Qed.

Lemma contains_join (sep x : string) (l : list string) :
  x ∈ l → contains x (join sep l).
Proof.
  induction l as [|y l IH]; [by intros ?%elem_of_nil|].
  intros [->|Hx]%elem_of_cons.
  - destruct l; [apply contains_refl|]. apply contains_app_l, contains_refl.
  - destruct l as [|z l]; [by apply elem_of_nil in Hx|].
    change (contains x (y +:+ sep +:+ join sep (z :: l))).
    by apply contains_app_r, contains_app_r, IH.
Qed.

Lemma contains_rstrip (n : string) (c : ascii) (t : string) :
  Py.isspace c = false →
  contains (n +:+ String c "") t → contains (n +:+ String c "") (Py.rstrip t).
Proof.
  intros Hc (x & y & ->).
  assert (x +:+ (n +:+ String c "") +:+ y = (x +:+ n) +:+ String c y) as ->.
  { by rewrite !append_assoc. }
  rewrite rstrip_keep by done.
  exists x, (Py.rstrip y). by rewrite !append_assoc.
Qed.

Lemma format_param_first (p : Param) :
  ∃ tail rest,
    format_param p = ("[b]" +:+ name p +:+ "[/b]" +:+ tail) :: rest.
Proof.
  unfold format_param.
  exists (" = " +:+ current p
          +:+ (if writable p then " (runtime writable)" else "")).
  eexists. reflexivity.
Qed.

Lemma bold_shape (m t : string) :
  ("[b]" +:+ m +:+ "[/b]") +:+ t = ("[b]" +:+ m +:+ "[/b") +:+ String "]" t.
Proof. rewrite !append_assoc. reflexivity. Qed.

Lemma lstrip_bold (t : string) : Py.lstrip ("[b]" +:+ t) = "[b]" +:+ t.
Proof. reflexivity. Qed.

(** X20: the text [format_module_details] makes of a model starts with
    the name of the module in bold.  For a model without parameters it
    goes on with an empty line and the sentence that there are none; for
    a model with parameters it has no whitespace at either end and holds
    the name of every parameter in bold. *)
Theorem X20_details_text_names_every_parameter (model : Model) :
  (params model = [] →
   format_module_details model
   = "[b]" +:+ module model +:+ "[/b]" +:+ LF +:+ LF
     +:+ "No parameters available (or no sysfs params).")
  ∧ (∃ tail, format_module_details model
             = ("[b]" +:+ module model +:+ "[/b]") +:+ tail)
  ∧ (params model ≠ [] →
     Py.strip (format_module_details model) = format_module_details model)
  ∧ (∀ p, p ∈ params model →
          contains ("[b]" +:+ name p +:+ "[/b]") (format_module_details model)).
Proof.
  unfold format_module_details.
  destruct (params model) as [|p0 ps] eqn:Hps.
  { split_and!; [done| |done|by intros p ?%elem_of_nil].
    eexists. by rewrite !append_assoc. }
  set (lines := (p0 :: ps) ≫= format_param).
  set (h := "[b]" +:+ module model +:+ "[/b]").
  assert (∃ l ls, lines = l :: ls) as (l & ls & Hlines).
  { unfold lines. destruct (format_param_first p0) as (t & r & Hf).
    change ((p0 :: ps) ≫= format_param)
      with (format_param p0 ++ (ps ≫= format_param)).
    rewrite Hf. by eexists _, _. }
  assert (join LF ([h; ""] ++ lines) = h +:+ (LF +:+ join LF ("" :: lines))) as Hbody.
  { by rewrite Hlines. }
  assert (Py.strip (join LF ([h; ""] ++ lines))
          = ("[b]" +:+ module model +:+ "[/b")
            +:+ String "]" (Py.rstrip (LF +:+ join LF ("" :: lines)))) as Hstrip.
  { unfold Py.strip. rewrite Hbody. unfold h.
    rewrite (append_assoc "[b]"), lstrip_bold, <- (append_assoc "[b]").
    rewrite bold_shape. by apply rstrip_keep. }
  split_and!.
  - done.
  - rewrite Hstrip. eexists. by rewrite <- bold_shape.
  - intros _. apply strip_idem.
  - intros p Hp.
    assert (Py.strip (join LF ([h; ""] ++ lines))
            = Py.rstrip (join LF ([h; ""] ++ lines))) as ->.
    { rewrite Hstrip, Hbody. unfold h. rewrite bold_shape. symmetry.
      by apply rstrip_keep. }
    assert ("[b]" +:+ name p +:+ "[/b]"
            = ("[b]" +:+ name p +:+ "[/b") +:+ String "]" "") as Hneedle.
    { by rewrite !append_assoc. }
    rewrite Hneedle. apply contains_rstrip; [done|]. rewrite <- Hneedle.
    destruct (format_param_first p) as (t & r & Hf).
    assert ("[b]" +:+ name p +:+ "[/b]" +:+ t ∈ lines) as Hin.
    { unfold lines. apply list_elem_of_bind. exists p. split; [|done].
      rewrite Hf. by left. }
    assert (contains ("[b]" +:+ name p +:+ "[/b]" +:+ t) (join LF ([h; ""] ++ lines)))
      as (x' & y' & ->).
    { apply contains_join. apply elem_of_app. by right. }
    exists x', (t +:+ y'). by rewrite !append_assoc.
Qed.

Lemma X20_details_text_names_every_parameter_witness :
  contains "[b]debug[/b]" (format_module_details demo_model)
  ∧ Py.strip (format_module_details demo_model) = format_module_details demo_model.
Proof.
  destruct (X20_details_text_names_every_parameter demo_model) as (_ & _ & Hs & Hc).
  split.
  - apply (Hc demo_debug_param).
    apply elem_of_cons. right. apply elem_of_cons. right. apply elem_of_cons. by left.
  - apply Hs. discriminate.
Defined.

(** ** When the loop of the live reader raises *)

Lemma read_params_loop_raises (w : World) (dir : string) (names : list string)
    (n : string) (e : exn) :
  n ∈ names → is_file w (path_join dir n) = true →
  st_mode w (path_join dir n) = Raise e →
  ∃ e', read_params_loop w dir names = Raise e'.
Proof.
  intros Hn Hf He. induction names as [|x names IH]; [by apply elem_of_nil in Hn|].
  simpl. apply elem_of_cons in Hn as [<-|Hn].
  - rewrite Hf. simpl. unfold mbind, res_mbind, read_param. simpl. rewrite He.
    by eexists.
  - destruct (IH Hn) as [e' He'].
    destruct (is_file w (path_join dir x)); simpl; [|by eexists].
    unfold mbind, res_mbind. simpl.
    destruct (read_param w dir x); simpl; [|by eexists].
    rewrite He'. by eexists.
Qed.

Lemma read_params_loop_Raise (w : World) (dir : string) (names : list string)
    (e : exn) :
  read_params_loop w dir names = Raise e →
  ∃ n, n ∈ names ∧ is_file w (path_join dir n) = true
       ∧ st_mode w (path_join dir n) = Raise e.
Proof.
  induction names as [|x names IH]; simpl; [done|].
  destruct (is_file w (path_join dir x)) eqn:Hf; simpl.
  - unfold mbind, res_mbind, read_param. simpl.
    destruct (st_mode w (path_join dir x)) as [mode|e0] eqn:Hst; simpl.
    + destruct (read_params_loop w dir names) as [rs|e1]; simpl; [done|].
      intros [= ->]. destruct IH as (n & Hn & ? & ?); [done|].
      exists n. split; [by right|done].
    + intros [= ->]. exists x. split; [by left|done].
  - intros (n & Hn & ? & ?)%IH. exists n. split; [by right|done].
Qed.
